(** * Wikipedia Q&A assistant (app.py): a shallow embedding and its properties

    The script fetches a Wikipedia article, truncates it, builds one of two
    prompt templates and hands the prompt to a locally loaded Phi-2 model.
    Everything the script talks to (the file system, gdown, the wikipedia
    package, llama_cpp, Streamlit's widgets and its resource cache) is
    modelled explicitly: the program is a computation over a [World] that
    may return a value or raise a Python exception, and every call that
    leaves the script is recorded in the world's log. *)

From Stdlib Require Import List NArith ZArith QArith Bool String Ascii Lia.
Import ListNotations.

Set Implicit Arguments.

(* ================================================================= *)
(** ** Python strings *)

(** A Python [str] is a sequence of Unicode code points. *)
Definition codepoint := N.
Definition pystr := list codepoint.

Module Utf8.
(** Source literals are written as UTF-8 text; [decode] turns the bytes
    into code points (one to four bytes per code point). *)
Record state := mk { out : pystr; pending : N; need : nat }.

Definition init : state := mk [] 0 0.

Definition step (st : state) (b : N) : state :=
  if (b <? 128)%N then mk (b :: out st) 0 0
  else if (b <? 192)%N then
    let cp := N.lor (N.shiftl (pending st) 6) (N.land b 63) in
    match need st with
    | O => st
    | S O => mk (cp :: out st) 0 0
    | S k => mk (out st) cp k
    end
  else if (b <? 224)%N then mk (out st) (N.land b 31) 1
  else if (b <? 240)%N then mk (out st) (N.land b 15) 2
  else mk (out st) (N.land b 7) 3.

Definition decode (s : string) : pystr :=
  rev (out (fold_left step (map N_of_ascii (list_ascii_of_string s)) init)).
End Utf8.

(** [py "text"] is the Python string literal ["text"]. *)
Definition py (s : string) : pystr := Utf8.decode s.

(** Characters that cannot be typed inside a literal here. *)
Definition nl : pystr := [10%N].
Definition triple_quote : pystr := [34%N; 34%N; 34%N].

Fixpoint pystr_eqb (a b : pystr) : bool :=
  match a, b with
  | [], [] => true
  | x :: a', y :: b' => N.eqb x y && pystr_eqb a' b'
  | _, _ => false
  end.

(** [len(s)] *)
Definition len (s : pystr) : Z := Z.of_nat (List.length s).

(** [s[:stop]], with Python's treatment of a negative bound. *)
Definition slice_to (stop : Z) (s : pystr) : pystr :=
  if (stop <? 0)%Z then firstn (Z.to_nat (len s + stop)) s
  else firstn (Z.to_nat stop) s.

(** [str.isspace] on one code point: the Unicode white space that
    [str.strip()] removes. *)
Definition isspace (c : codepoint) : bool :=
  ((9 <=? c) && (c <=? 13) || (28 <=? c) && (c <=? 32)
   || (c =? 133) || (c =? 160) || (c =? 5760)
   || (8192 <=? c) && (c <=? 8202)
   || (c =? 8232) || (c =? 8233) || (c =? 8239) || (c =? 8287)
   || (c =? 12288))%N.

Fixpoint lstrip (s : pystr) : pystr :=
  match s with
  | [] => []
  | c :: s' => if isspace c then lstrip s' else s
  end.

Definition rstrip (s : pystr) : pystr := rev (lstrip (rev s)).

(** [s.strip()] *)
Definition strip (s : pystr) : pystr := rstrip (lstrip s).

(** Truth value of a [str]. *)
Definition truthy (s : pystr) : bool :=
  match s with [] => false | _ :: _ => true end.

(* ================================================================= *)
(** ** os.path and a tree-shaped file system *)

Definition slash : codepoint := 47%N.

Definition endswith_slash (a : pystr) : bool :=
  match rev a with c :: _ => N.eqb c slash | [] => false end.

(** [os.path.join(a, b)] on POSIX, two arguments. *)
Definition os_path_join (a b : pystr) : pystr :=
  match b with
  | c :: _ =>
      if N.eqb c slash then b
      else if negb (truthy a) || endswith_slash a then a ++ b
      else a ++ [slash] ++ b
  | [] =>
      if negb (truthy a) || endswith_slash a then a else a ++ [slash]
  end.

(** Components of a relative path. *)
Fixpoint split_path_aux (cur : pystr) (s : pystr) : list pystr :=
  match s with
  | [] => match cur with [] => [] | _ => [rev cur] end
  | c :: s' =>
      if N.eqb c slash
      then match cur with
           | [] => split_path_aux [] s'
           | _ => rev cur :: split_path_aux [] s'
           end
      else split_path_aux (c :: cur) s'
  end.

Definition split_path (s : pystr) : list pystr := split_path_aux [] s.

(** The working directory is a tree: a regular file, or a directory with
    named entries. *)
#[warnings="-register-all"]
Inductive Node : Type :=
| File
| Dir (entries : list (pystr * Node)).

Fixpoint assoc (k : pystr) (es : list (pystr * Node)) : option Node :=
  match es with
  | [] => None
  | (k', n) :: es' => if pystr_eqb k k' then Some n else assoc k es'
  end.

Fixpoint assoc_set (k : pystr) (v : Node) (es : list (pystr * Node))
  : list (pystr * Node) :=
  match es with
  | [] => [(k, v)]
  | (k', n) :: es' =>
      if pystr_eqb k k' then (k', v) :: es' else (k', n) :: assoc_set k v es'
  end.

Fixpoint fs_lookup (path : list pystr) (n : Node) : option Node :=
  match path with
  | [] => Some n
  | c :: rest =>
      match n with
      | File => None
      | Dir es =>
          match assoc c es with
          | Some n' => fs_lookup rest n'
          | None => None
          end
      end
  end.

Definition fs_exists (path : pystr) (root : Node) : bool :=
  match fs_lookup (split_path path) root with Some _ => true | None => false end.

(** [mkdir -p]: [None] when a component of the path is a regular file. *)
Fixpoint fs_mkdirs (path : list pystr) (n : Node) : option Node :=
  match n with
  | File => None
  | Dir es =>
      match path with
      | [] => Some n
      | c :: rest =>
          let sub := match assoc c es with Some n' => n' | None => Dir [] end in
          match fs_mkdirs rest sub with
          | Some sub' => Some (Dir (assoc_set c sub' es))
          | None => None
          end
      end
  end.

(** Creating or replacing a regular file: [None] when the parent directory
    is missing or the target is a directory. *)
Fixpoint fs_write (path : list pystr) (n : Node) : option Node :=
  match path with
  | [] => match n with File => Some File | Dir _ => None end
  | c :: rest =>
      match n with
      | File => None
      | Dir es =>
          match rest, assoc c es with
          | [], None => Some (Dir (assoc_set c File es))
          | _, Some n' =>
              match fs_write rest n' with
              | Some n'' => Some (Dir (assoc_set c n'' es))
              | None => None
              end
          | _ :: _, None => None
          end
      end
  end.

(* ================================================================= *)
(** ** Exceptions, the world and the computation monad *)

(** Exception classes the script can meet.  The last two derive from
    [BaseException] only, so [except Exception] lets them through. *)
Inductive ExnClass : Type :=
| PageError | DisambiguationError | HTTPTimeoutError | RedirectError
| WikipediaException | ConnectionError
| ValueError | IndexError | FileExistsError | FileNotFoundError
| NotADirectoryError
| FileURLRetrievalError | RuntimeError
| KeyboardInterrupt | SystemExit.

Record Exn : Type := mkExn { exn_class : ExnClass; exn_str : pystr }.

(** [isinstance(e, Exception)] *)
Definition is_Exception (e : Exn) : bool :=
  match exn_class e with
  | KeyboardInterrupt | SystemExit => false
  | _ => true
  end.

(** A loaded [Llama] object, known by its identity. *)
Definition Handle := nat.

(** What the inference engine returns: [output["choices"][k]["text"]]. *)
Record Choice : Type := mkChoice { text : pystr }.
Record Completion : Type := mkCompletion { choices : list Choice }.

(** A [wikipedia.WikipediaPage]; [content] is a lazy property whose first
    read may fail as well. *)
Record WikipediaPage : Type :=
  mkPage { page_title : pystr; page_content : Exn + pystr }.

Inductive StKind : Type :=
| StPageConfig | StTitle | StMarkdown | StCaption | StSidebarHeader
| StSubheader | StSpinner | StExpander | StInfo | StSuccess | StError
| StWrite | StException.

(** Everything observable the script does, in order. *)
Inductive Event : Type :=
| St (k : StKind) (body : pystr)
| Makedirs (dir : pystr)
| GdownDownload (url path : pystr)
| WikipediaLookup (topic : pystr)
| LlamaInit (model_path : pystr) (n_ctx n_threads : Z) (loaded : option Handle)
| LlamaCall (llm : Handle) (prompt : pystr) (max_tokens : Z) (temperature : Q).

Record World : Type := mkWorld {
  fs : Node;                        (* the working directory *)
  resource_cache : option Handle;   (* st.cache_resource entry of load_model *)
  next_obj : nat;                   (* next fresh object identity *)
  clock : nat;                      (* number of calls made to the outside *)
  log : list Event
}.

Inductive Outcome (A : Type) : Type :=
| Return (a : A)
| Raise (e : Exn).
Arguments Raise {A} e.

(** A computation reads and updates the world and either returns or
    raises; effects made before a [raise] stay. *)
Definition M (A : Type) : Type := World -> Outcome A * World.

Definition ret {A} (a : A) : M A := fun w => (Return a, w).

Definition raise {A} (e : Exn) : M A := fun w => (Raise e, w).

Definition bind {A B} (m : M A) (k : A -> M B) : M B :=
  fun w =>
    match m w with
    | (Return a, w') => k a w'
    | (Raise e, w') => (Raise e, w')
    end.

Declare Scope py_scope.
Delimit Scope py_scope with py.
Notation "x <- m ;; k" := (bind m (fun x => k))
  (at level 100, m at next level, right associativity) : py_scope.
Notation "m ;; k" := (bind m (fun _ => k))
  (at level 100, right associativity) : py_scope.
Open Scope py_scope.

(** [try: body  except Exception as e: handler(e)] *)
Definition try_except {A} (body : M A) (handler : Exn -> M A) : M A :=
  fun w =>
    match body w with
    | (Raise e, w') =>
        if is_Exception e then handler e w' else (Raise e, w')
    | r => r
    end.

Definition emit (ev : Event) : M unit :=
  fun w => (Return tt,
            mkWorld (fs w) (resource_cache w) (next_obj w) (clock w)
                    (log w ++ [ev])).

Definition tick : M unit :=
  fun w => (Return tt,
            mkWorld (fs w) (resource_cache w) (next_obj w) (S (clock w))
                    (log w)).

Definition get_clock : M nat := fun w => (Return (clock w), w).

Definition get_fs : M Node := fun w => (Return (fs w), w).

Definition set_fs (root : Node) : M unit :=
  fun w => (Return tt,
            mkWorld root (resource_cache w) (next_obj w) (clock w) (log w)).

Definition fresh_obj : M nat :=
  fun w => (Return (next_obj w),
            mkWorld (fs w) (resource_cache w) (S (next_obj w)) (clock w)
                    (log w)).

Definition get_cache : M (option Handle) :=
  fun w => (Return (resource_cache w), w).

Definition set_cache (h : Handle) : M unit :=
  fun w => (Return tt,
            mkWorld (fs w) (Some h) (next_obj w) (clock w) (log w)).

(** The parts of the outside world whose answers the script cannot
    predict; the first argument is the clock at the time of the call. *)
Class Externals : Type := {
  ext_wikipedia_page : nat -> pystr -> Exn + WikipediaPage;
  ext_gdown : nat -> pystr -> option Exn;
  ext_llama_load : nat -> pystr -> Z -> Z -> option Exn;
  ext_llama_call : nat -> Handle -> pystr -> Z -> Q -> Exn + Completion
}.

Section Program.
Context {ext : Externals}.

(* --------------------------------------------------------------- *)
(** *** The library calls the script makes *)

(** [st.info], [st.error], [st.write], ...: something shown on the page. *)
Definition st (k : StKind) (body : pystr) : M unit := emit (St k body).

(** [str(e)] of the [OSError] that [mkdir] raises for [path]; the path is
    shown between quotes. *)
Definition file_exists_str (path : pystr) : pystr :=
  py "[Errno 17] File exists: '" ++ path ++ py "'".

Definition not_a_directory_str (path : pystr) : pystr :=
  py "[Errno 20] Not a directory: '" ++ path ++ py "'".

(** [os.makedirs(dir, exist_ok=...)] *)
Definition os_makedirs (dir : pystr) (exist_ok : bool) : M unit :=
  emit (Makedirs dir) ;;
  root <- get_fs ;;
  match fs_lookup (split_path dir) root with
  | Some (Dir _) =>
      if exist_ok then ret tt
      else raise (mkExn FileExistsError (file_exists_str dir))
  | Some File => raise (mkExn FileExistsError (file_exists_str dir))
  | None =>
      match fs_mkdirs (split_path dir) root with
      | Some root' => set_fs root'
      | None => raise (mkExn NotADirectoryError (not_a_directory_str dir))
      end
  end.

(** [os.path.exists(path)] *)
Definition os_path_exists (path : pystr) : M bool :=
  root <- get_fs ;; ret (fs_exists path root).

(** [gdown.download(url, path, quiet=...)]; [quiet] only silences the
    progress bar.  A transfer that fails raises, as gdown does from
    version 5 on. *)
Definition gdown_download (url path : pystr) (quiet : bool) : M pystr :=
  emit (GdownDownload url path) ;;
  t <- get_clock ;;
  tick ;;
  match ext_gdown t url with
  | Some e => raise e
  | None =>
      root <- get_fs ;;
      match fs_write (split_path path) root with
      | Some root' => set_fs root' ;; ret path
      | None => raise (mkExn FileNotFoundError path)
      end
  end.

(** [wikipedia.page(topic)] *)
Definition wikipedia_page (topic : pystr) : M WikipediaPage :=
  emit (WikipediaLookup topic) ;;
  t <- get_clock ;;
  tick ;;
  match ext_wikipedia_page t topic with
  | inl e => raise e
  | inr page => ret page
  end.

(** [page.content] *)
Definition content (page : WikipediaPage) : M pystr :=
  match page_content page with
  | inl e => raise e
  | inr c => ret c
  end.

(** [Llama(model_path=..., n_ctx=..., n_threads=...)]: a missing file is
    refused at once, otherwise loading may still fail. *)
Definition Llama (model_path : pystr) (n_ctx n_threads : Z) : M Handle :=
  t <- get_clock ;;
  tick ;;
  root <- get_fs ;;
  if fs_exists model_path root then
    match ext_llama_load t model_path n_ctx n_threads with
    | Some e => emit (LlamaInit model_path n_ctx n_threads None) ;; raise e
    | None =>
        h <- fresh_obj ;;
        emit (LlamaInit model_path n_ctx n_threads (Some h)) ;;
        ret h
    end
  else
    emit (LlamaInit model_path n_ctx n_threads None) ;;
    raise (mkExn ValueError (py "Model path does not exist: " ++ model_path)).

(** [llm(prompt, max_tokens=..., temperature=...)] *)
Definition llama_call (llm : Handle) (prompt : pystr) (max_tokens : Z)
    (temperature : Q) : M Completion :=
  emit (LlamaCall llm prompt max_tokens temperature) ;;
  t <- get_clock ;;
  tick ;;
  match ext_llama_call t llm prompt max_tokens temperature with
  | inl e => raise e
  | inr c => ret c
  end.

(** [xs[0]] *)
Definition getitem0 {A} (xs : list A) : M A :=
  match xs with
  | x :: _ => ret x
  | [] => raise (mkExn IndexError (py "list index out of range"))
  end.

(** [@st.cache_resource]: the decorated function runs until it has
    returned once; from then on the stored object is handed out.  A call
    that raises stores nothing. *)
Definition st_cache_resource (f : M Handle) : M Handle :=
  c <- get_cache ;;
  match c with
  | Some h => ret h
  | None => h <- f ;; set_cache h ;; ret h
  end.

(** [with st.spinner(msg): body] *)
Definition with_spinner {A} (msg : pystr) (body : M A) : M A :=
  st StSpinner msg ;; body.

(* --------------------------------------------------------------- *)
(** *** app.py *)

Definition MODEL_DIR : pystr := py "models".
Definition MODEL_PATH : pystr := os_path_join MODEL_DIR (py "phi-2.Q4_K_M.gguf").
Definition MODEL_DRIVE_URL : pystr :=
  py "https://drive.google.com/uc?id=1bquBi_ccK4XDsatiHZsucysPUBXzmga6".

Definition download_model : M unit :=
  os_makedirs MODEL_DIR true ;;
  present <- os_path_exists MODEL_PATH ;;
  if negb present then
    st StInfo (py "Downloading Phi-2 model... This may take a few minutes ⏳") ;;
    gdown_download MODEL_DRIVE_URL MODEL_PATH false ;;
    st StSuccess (py "Model downloaded successfully ✅")
  else
    st StInfo (py "Model already available ✅").

Definition load_model : M Handle :=
  st_cache_resource (
    llm <- Llama MODEL_PATH 2048 8 ;;
    ret llm).

Definition get_wiki_content (topic : pystr) : M (option pystr) :=
  try_except
    (page <- wikipedia_page topic ;;
     content <- content page ;;
     ret (Some (slice_to 6000 content)))
    (fun e =>
       st StError (py "❌ Error fetching content: " ++ exn_str e) ;;
       ret None).

(** The two f-strings of [summarize_content]. *)
Definition answer_prompt (content question : pystr) : pystr :=
  nl ++ py "You are an AI assistant. Based on the Wikipedia content below,"
  ++ nl ++ py "answer the question clearly and concisely."
  ++ nl
  ++ nl ++ py "Wikipedia content:"
  ++ nl ++ triple_quote ++ content ++ triple_quote
  ++ nl
  ++ nl ++ py "Question: " ++ question
  ++ nl ++ py "Answer:"
  ++ nl.

Definition summary_prompt (topic content : pystr) : pystr :=
  nl ++ py "Summarize the following Wikipedia content about '" ++ topic
     ++ py "' in a clear,"
  ++ nl ++ py "structured, and easy-to-read manner."
  ++ nl
  ++ nl ++ py "Wikipedia content:"
  ++ nl ++ triple_quote ++ content ++ triple_quote
  ++ nl
  ++ nl ++ py "Summary:"
  ++ nl.

(** [if question: ... else: ...] *)
Definition build_prompt (topic content : pystr) (question : option pystr)
  : pystr :=
  match question with
  | Some q =>
      if truthy q then answer_prompt content q
      else summary_prompt topic content
  | None => summary_prompt topic content
  end.

Definition summarize_content (llm : Handle) (topic content : pystr)
    (question : option pystr) : M pystr :=
  let prompt := build_prompt topic content question in
  output <- llama_call llm prompt 512 (6 # 10) ;;
  choice <- getitem0 (choices output) ;;
  ret (strip (text choice)).

(* --------------------------------------------------------------- *)
(** *** The page: one run of the script for one state of the widgets *)

Inductive Action : Type := SummarizeTopic | AskQuestion.

(** The options of the [st.radio]. *)
Definition radio_label (a : Action) : pystr :=
  match a with
  | SummarizeTopic => py "Summarize Topic"
  | AskQuestion => py "Ask a Question"
  end.

(** What the widgets return in this run. *)
Record Inputs : Type := mkInputs {
  download_clicked : bool;     (* st.sidebar.button("Download/Check Model") *)
  topic_input : pystr;         (* st.text_input("Enter a Wikipedia topic") *)
  action_choice : Action;      (* st.radio("Select what you want to do:") *)
  summary_clicked : bool;      (* st.button("Generate Summary") *)
  question_input : pystr;      (* st.text_input("Enter your question") *)
  answer_clicked : bool        (* st.button("Get Answer") *)
}.

(** Lines 71-78: page header and the sidebar. *)
Definition setup (i : Inputs) : M unit :=
  st StPageConfig (py "Wikipedia Q&A Assistant") ;;
  st StTitle (py "📚 Wikipedia Q&A Assistant (Phi-2)") ;;
  st StMarkdown (py "Ask questions or get summaries from any Wikipedia topic using the Phi-2 model!") ;;
  st StSidebarHeader (py "⚙️ Setup") ;;
  if download_clicked i then download_model else ret tt.

(** Lines 95-112: the two actions. *)
Definition choose_action (i : Inputs) (llm : Handle)
    (topic wiki_text : pystr) : M unit :=
  st StSubheader (py "🧩 Choose Action") ;;
  let action := radio_label (action_choice i) in
  if pystr_eqb action (py "Summarize Topic") then
    if summary_clicked i then
      summary <- with_spinner (py "Generating summary...")
                   (summarize_content llm topic wiki_text None) ;;
      st StSuccess (py "✅ Summary generated!") ;;
      st StWrite summary
    else ret tt
  else if pystr_eqb action (py "Ask a Question") then
    let question := question_input i in
    if answer_clicked i && truthy question then
      answer <- with_spinner (py "Generating answer...")
                  (summarize_content llm topic wiki_text (Some question)) ;;
      st StSuccess (py "✅ Answer generated!") ;;
      st StWrite answer
    else ret tt
  else ret tt.

(** Lines 88-112: the page once an article text is there. *)
Definition content_block (i : Inputs) (topic wiki_text : pystr) : M unit :=
  st StExpander (py "📄 View Retrieved Wikipedia Text") ;;
  st StWrite (if (len wiki_text >? 2000)%Z
              then slice_to 2000 wiki_text ++ py "..."
              else wiki_text) ;;
  llm <- with_spinner (py "Loading Phi-2 model...") load_model ;;
  choose_action i llm topic wiki_text.

(** Lines 83-112: everything under [if topic:]; [if wiki_text:] holds
    for a string that is neither [None] nor empty. *)
Definition topic_block (i : Inputs) : M unit :=
  let topic := topic_input i in
  if truthy topic then
    wiki_text <- with_spinner (py "Fetching Wikipedia content...")
                   (get_wiki_content topic) ;;
    match wiki_text with
    | Some wiki_text =>
        if truthy wiki_text then content_block i topic wiki_text
        else ret tt
    | None => ret tt
    end
  else ret tt.

(** Lines 114-115. *)
Definition footer : M unit :=
  st StMarkdown (py "---") ;;
  st StCaption (py "Developed with ❤️ using Streamlit + Phi-2").

(** The whole script, top to bottom. *)
Definition app (i : Inputs) : M unit :=
  setup i ;; topic_block i ;; footer.

(** Streamlit runs the script again on every widget event, in the same
    process; an exception that escapes a run is shown on the page and
    ends that run only. *)
Definition rerun (w : World) (i : Inputs) : World :=
  match app i w with
  | (Return _, w') => w'
  | (Raise e, w') => snd (st StException (exn_str e) w')
  end.

Definition session (runs : list Inputs) (w : World) : World :=
  fold_left rerun runs w.

(** [n] calls of [load_model] in a row: their outcomes and the world
    after the last one. *)
Fixpoint call_load_model (n : nat) (w : World)
  : list (Outcome Handle) * World :=
  match n with
  | O => ([], w)
  | S n' =>
      let (r, w1) := load_model w in
      let (rs, w2) := call_load_model n' w1 in
      (r :: rs, w2)
  end.
End Program.

(** A process starts with an empty cache and an empty log. *)
Definition initial_world (root : Node) : World := mkWorld root None 0 0 [].

(** The events of a log that reach the model. *)
Definition is_llama_init (ev : Event) : bool :=
  match ev with LlamaInit _ _ _ _ => true | _ => false end.

Definition is_llama_call (ev : Event) : bool :=
  match ev with LlamaCall _ _ _ _ => true | _ => false end.

Definition is_diagnostic (ev : Event) : bool :=
  match ev with St StError _ => true | _ => false end.

(** The handles constructed so far. *)
Fixpoint constructed (evs : list Event) : list Handle :=
  match evs with
  | [] => []
  | LlamaInit _ _ _ (Some h) :: evs' => h :: constructed evs'
  | _ :: evs' => constructed evs'
  end.

(** The world [w] after [ticks] more outside calls and the events [evs],
    with files, cache and object counter as they were. *)
Definition after (w : World) (ticks : nat) (evs : list Event) : World :=
  mkWorld (fs w) (resource_cache w) (next_obj w) (ticks + clock w)
          (log w ++ evs).

(** What the two steps of the lookup, [wikipedia.page(topic)] and
    [page.content], yield at time [t]: the article text, or the exception
    of the step that failed. *)
Definition lookup {ext : Externals} (t : nat) (topic : pystr) : Exn + pystr :=
  match ext_wikipedia_page t topic with
  | inl e => inl e
  | inr page => page_content page
  end.

(** The cache holds exactly the handles constructed so far. *)
Definition cache_inv (w : World) : Prop :=
  constructed (log w) =
  match resource_cache w with Some h => [h] | None => [] end.

(** [frames P m]: whatever the world, [m] only appends events that satisfy
    [P] to the log, also when it raises. *)
Definition frames {A} (P : Event -> Prop) (m : M A) : Prop :=
  forall w, exists evs, log (snd (m w)) = log w ++ evs /\ Forall P evs.

(** [keeps I m]: [m] preserves the invariant [I] of the world, also when it
    raises. *)
Definition keeps {A} (I : World -> Prop) (m : M A) : Prop :=
  forall w, I w -> I (snd (m w)).

(** An event that does not reach the model, neither to load it nor to
    call it; an event that is not a generation call. *)
Definition no_model (ev : Event) : Prop :=
  is_llama_init ev = false /\ is_llama_call ev = false.

Definition no_call (ev : Event) : Prop := is_llama_call ev = false.

(** A prompt sent to the engine was built from the given topic and text. *)
Definition built_from (topic text : pystr) (ev : Event) : Prop :=
  forall h p mt temp,
    ev = LlamaCall h p mt temp -> exists q, p = build_prompt topic text q.

(** Names for texts of the script that the statements mention. *)
Definition MODEL_FILE : pystr := py "phi-2.Q4_K_M.gguf".
Definition msg_downloading : pystr :=
  py "Downloading Phi-2 model... This may take a few minutes ⏳".
Definition msg_downloaded : pystr := py "Model downloaded successfully ✅".
Definition msg_available : pystr := py "Model already available ✅".
Definition spinner_fetch : Event :=
  St StSpinner (py "Fetching Wikipedia content...").

(* ================================================================= *)
(** ** Two concrete surroundings, used to exercise the theorems *)

Module Demo.
(** An article of 7000 characters. *)
Definition article : pystr :=
  py "Quantum computing uses qubits. " ++ repeat 113%N (Z.to_nat 6969).

(** Every page exists, downloads and loads succeed, the engine answers
    with a fixed text. *)
Definition online : Externals := {|
  ext_wikipedia_page := fun _ topic => inr (mkPage topic (inr article));
  ext_gdown := fun _ _ => None;
  ext_llama_load := fun _ _ _ _ => None;
  ext_llama_call := fun _ _ p _ _ =>
    inr (mkCompletion [mkChoice (nl ++ py " A summary. " ++ nl)])
|}.

(** [str(e)] of the [PageError] that [wikipedia.page] raises for a title
    without a page; the title is shown between double quotes. *)
Definition page_error_str (topic : pystr) : pystr :=
  py "Page id " ++ [34%N] ++ topic ++ [34%N]
  ++ py " does not match any pages. Try another id!".

(** No page is found and nothing can be fetched. *)
Definition offline : Externals := {|
  ext_wikipedia_page := fun _ topic =>
    inl (mkExn PageError (page_error_str topic));
  ext_gdown := fun _ _ => Some (mkExn FileURLRetrievalError (py "Failed to retrieve file url"));
  ext_llama_load := fun _ _ _ _ => Some (mkExn RuntimeError (py "Failed to load model"));
  ext_llama_call := fun _ _ _ _ _ => inl (mkExn RuntimeError (py "engine failure"))
|}.

Definition empty_dir : Node := Dir [].
Definition with_model : Node :=
  Dir [(py "models", Dir [(py "phi-2.Q4_K_M.gguf", File)])].

Definition quantum : pystr := py "Quantum Computing".
Definition nonsense : pystr := py "Zzxyqplmnasdf123".

Definition ask_empty : Inputs :=
  mkInputs false quantum AskQuestion false [] true.
Definition ask_nonsense : Inputs :=
  mkInputs false nonsense SummarizeTopic true [] false.
Definition summarize_quantum : Inputs :=
  mkInputs false quantum SummarizeTopic true [] false.
End Demo.

(* ================================================================= *)
(** ** Further notions for the properties of the whole script *)

Definition is_lookup (ev : Event) : bool :=
  match ev with WikipediaLookup _ => true | _ => false end.

Definition is_download (ev : Event) : bool :=
  match ev with GdownDownload _ _ => true | _ => false end.

(** Events that touch the files: [os.makedirs] and [gdown.download]. *)
Definition is_file_event (ev : Event) : bool :=
  match ev with Makedirs _ | GdownDownload _ _ => true | _ => false end.

(** [emits_at_most f n m]: whatever the world, [m] appends at most [n]
    events of the kind [f] to the log, also when it raises. *)
Definition emits_at_most {A} (f : Event -> bool) (n : nat) (m : M A) : Prop :=
  forall w, exists evs,
    log (snd (m w)) = log w ++ evs /\ (List.length (filter f evs) <= n)%nat.

(** A generation call, if [ev] is one, went to [llm]. *)
Definition call_to (llm : Handle) (ev : Event) : Prop :=
  forall h p mt temp, ev = LlamaCall h p mt temp -> h = llm.

(** Every generation call in the log went to the handle in the cache; with
    an empty cache there has been none. *)
Definition calls_use_cache (w : World) : Prop :=
  match resource_cache w with
  | Some h => Forall (call_to h) (log w)
  | None => Forall no_call (log w)
  end.

(** A generation call, if [ev] is one, carries a prompt built from [text]
    with no question or with the question [question]. *)
Definition asks (topic text question : pystr) (ev : Event) : Prop :=
  forall h p mt temp,
    ev = LlamaCall h p mt temp ->
    p = build_prompt topic text None \/
    p = build_prompt topic text (Some question).

(** A generation call, if [ev] is one, carries a prompt of at most [n]
    characters. *)
Definition prompt_within (n : Z) (ev : Event) : Prop :=
  forall h p mt temp, ev = LlamaCall h p mt temp -> (len p <= n)%Z.

(** What separates content and question in the answer template, and topic
    and content in the summary template. *)
Definition answer_delim : pystr :=
  triple_quote ++ nl ++ nl ++ py "Question: ".

Definition summary_delim : pystr :=
  py "' in a clear,"
  ++ nl ++ py "structured, and easy-to-read manner."
  ++ nl ++ nl ++ py "Wikipedia content:" ++ nl ++ triple_quote.

(** More surroundings: a page without text, and a lookup that is
    interrupted from the keyboard. *)
Module Cases.
Definition blank_page : Externals := {|
  ext_wikipedia_page := fun _ topic => inr (mkPage topic (inr []));
  ext_gdown := fun _ _ => None;
  ext_llama_load := fun _ _ _ _ => None;
  ext_llama_call := fun _ _ _ _ _ => inr (mkCompletion [])
|}.

Definition interrupted : Externals := {|
  ext_wikipedia_page := fun _ _ => inl (mkExn KeyboardInterrupt []);
  ext_gdown := fun _ _ => None;
  ext_llama_load := fun _ _ _ _ => None;
  ext_llama_call := fun _ _ _ _ _ => inr (mkCompletion [])
|}.

Definition short_article : pystr := py "Qubits.".

Definition short_page : Externals := {|
  ext_wikipedia_page := fun _ topic => inr (mkPage topic (inr short_article));
  ext_gdown := fun _ _ => None;
  ext_llama_load := fun _ _ _ _ => None;
  ext_llama_call := fun _ _ _ _ _ =>
    inr (mkCompletion [mkChoice (py "  Two  words ")])
|}.

Definition ask_who : Inputs :=
  mkInputs false Demo.quantum AskQuestion false (py "Who?") true.
Definition press_download : Inputs :=
  mkInputs true [] SummarizeTopic false [] false.
End Cases.

(* ================================================================= *)
(** ** Strings *)

Arguments py : simpl never.

Lemma pystr_eqb_refl (a : pystr) : pystr_eqb a a = true.
Proof.
  induction a as [|x a IH]; simpl; [reflexivity|].
  now rewrite N.eqb_refl, IH.
Qed.

Lemma pystr_eqb_eq (a b : pystr) : pystr_eqb a b = true <-> a = b.
Proof.
  split; [|intros ->; apply pystr_eqb_refl].
  revert b; induction a as [|x a IH]; intros [|y b]; simpl; try discriminate;
    [reflexivity|].
  intros H. apply andb_prop in H as [Hx Hab].
  apply N.eqb_eq in Hx. apply IH in Hab. congruence.
Qed.

Lemma slice_to_length (n : Z) (s : pystr) :
  (0 <= n)%Z -> (len (slice_to n s) <= n)%Z.
Proof.
  intros Hn. unfold slice_to, len.
  destruct (n <? 0)%Z eqn:E; [apply Z.ltb_lt in E; lia|].
  pose proof (firstn_le_length (Z.to_nat n) s) as H.
  rewrite length_firstn. lia.
Qed.

Lemma slice_to_short (n : Z) (s : pystr) :
  (len s <= n)%Z -> slice_to n s = s.
Proof.
  unfold slice_to, len. intros H.
  destruct (n <? 0)%Z eqn:E; [apply Z.ltb_lt in E; lia|].
  apply firstn_all2. lia.
Qed.

Lemma lstrip_app_last (l : pystr) (c : codepoint) :
  isspace c = false -> lstrip (l ++ [c]) = lstrip l ++ [c].
Proof.
  intros Hc. induction l as [|x l IH]; simpl.
  - now rewrite Hc.
  - destruct (isspace x); [exact IH | reflexivity].
Qed.

Lemma lstrip_head (s : pystr) :
  lstrip s = [] \/ exists c t, lstrip s = c :: t /\ isspace c = false.
Proof.
  induction s as [|x s IH]; simpl; [now left|].
  destruct (isspace x) eqn:E; [exact IH|].
  right. now exists x, s.
Qed.

Lemma lstrip_fixed (c : codepoint) (t : pystr) :
  isspace c = false -> lstrip (c :: t) = c :: t.
Proof. intros H. simpl. now rewrite H. Qed.

Lemma lstrip_idem (s : pystr) : lstrip (lstrip s) = lstrip s.
Proof.
  destruct (lstrip_head s) as [->|(c & t & -> & Hc)]; [reflexivity|].
  now apply lstrip_fixed.
Qed.

Lemma rstrip_idem (s : pystr) : rstrip (rstrip s) = rstrip s.
Proof.
  unfold rstrip. now rewrite rev_involutive, lstrip_idem.
Qed.

Lemma rstrip_cons (c : codepoint) (t : pystr) :
  isspace c = false -> rstrip (c :: t) = c :: rstrip t.
Proof.
  intros Hc. unfold rstrip. simpl rev at 2.
  rewrite lstrip_app_last by assumption.
  now rewrite rev_app_distr.
Qed.

Lemma lstrip_strip (s : pystr) : lstrip (strip s) = strip s.
Proof.
  unfold strip.
  destruct (lstrip_head s) as [->|(c & t & -> & Hc)]; [reflexivity|].
  rewrite rstrip_cons by assumption. now apply lstrip_fixed.
Qed.

Lemma rstrip_strip (s : pystr) : rstrip (strip s) = strip s.
Proof. unfold strip. apply rstrip_idem. Qed.

Lemma strip_idem (s : pystr) : strip (strip s) = strip s.
Proof.
  unfold strip at 1. now rewrite lstrip_strip, rstrip_strip.
Qed.

Lemma lstrip_split (s : pystr) :
  exists pre, s = pre ++ lstrip s /\ Forall (fun c => isspace c = true) pre.
Proof.
  induction s as [|x s (pre & Hs & Hp)]; simpl.
  - now exists [].
  - destruct (isspace x) eqn:E.
    + exists (x :: pre). simpl. split; [now rewrite <- Hs | now constructor].
    + now exists [].
Qed.

Lemma rstrip_split (s : pystr) :
  exists post, s = rstrip s ++ post /\ Forall (fun c => isspace c = true) post.
Proof.
  destruct (lstrip_split (rev s)) as (pre & Hs & Hp).
  exists (rev pre). split; [|now apply Forall_rev].
  unfold rstrip. rewrite <- rev_app_distr, <- Hs. now rewrite rev_involutive.
Qed.

Lemma lstrip_length (s : pystr) :
  (List.length (lstrip s) <= List.length s)%nat.
Proof.
  induction s as [|x s IH]; simpl; [lia|].
  destruct (isspace x); simpl; lia.
Qed.

Lemma lstrip_fixed_head (s : pystr) (c : codepoint) :
  lstrip s = s -> hd_error s = Some c -> isspace c = false.
Proof.
  destruct s as [|x s]; simpl; [discriminate|].
  intros H Hc. injection Hc as ->.
  destruct (isspace c) eqn:E; [|reflexivity].
  pose proof (lstrip_length s) as Hl. rewrite H in Hl. simpl in Hl. lia.
Qed.

Lemma rstrip_fixed_last (s : pystr) (c : codepoint) :
  rstrip s = s -> hd_error (rev s) = Some c -> isspace c = false.
Proof.
  unfold rstrip. intros H. apply lstrip_fixed_head.
  rewrite <- H at 2. now rewrite rev_involutive.
Qed.

(* ================================================================= *)
(** ** Reasoning about computations *)

Lemma after_after (w : World) (n m : nat) (e1 e2 : list Event) :
  after (after w n e1) m e2 = after w (m + n) (e1 ++ e2).
Proof.
  unfold after; simpl. f_equal; [lia | now rewrite app_assoc].
Qed.

Lemma emit_eval (ev : Event) (w : World) :
  emit ev w = (Return tt, after w 0 [ev]).
Proof. reflexivity. Qed.

Lemma constructed_app (a b : list Event) :
  constructed (a ++ b) = constructed a ++ constructed b.
Proof.
  induction a as [|ev a IH]; simpl; [reflexivity|].
  destruct ev as [| | | |? ? ? [h|]|]; simpl; now rewrite ?IH.
Qed.

Section Frames.
Variable P : Event -> Prop.

Lemma frames_ret {A} (a : A) : frames P (ret a).
Proof. intros w. exists []. simpl. now rewrite app_nil_r. Qed.

Lemma frames_raise {A} (e : Exn) : frames P (@raise A e).
Proof. intros w. exists []. simpl. now rewrite app_nil_r. Qed.

Lemma frames_bind {A B} (m : M A) (k : A -> M B) :
  frames P m -> (forall a, frames P (k a)) -> frames P (bind m k).
Proof.
  intros Hm Hk w. unfold bind.
  destruct (Hm w) as (e1 & H1 & F1).
  destruct (m w) as [[a|e] w1]; simpl in *.
  - destruct (Hk a w1) as (e2 & H2 & F2).
    exists (e1 ++ e2). rewrite H2, H1, app_assoc. split; [reflexivity|].
    apply Forall_app. now split.
  - now exists e1.
Qed.

Lemma frames_try_except {A} (m : M A) (k : Exn -> M A) :
  frames P m -> (forall e, frames P (k e)) -> frames P (try_except m k).
Proof.
  intros Hm Hk w. unfold try_except.
  destruct (Hm w) as (e1 & H1 & F1).
  destruct (m w) as [[a|e] w1]; simpl in *; [now exists e1|].
  destruct (is_Exception e); [|now exists e1].
  destruct (Hk e w1) as (e2 & H2 & F2).
  exists (e1 ++ e2). rewrite H2, H1, app_assoc. split; [reflexivity|].
  apply Forall_app. now split.
Qed.

Lemma frames_emit (ev : Event) : P ev -> frames P (emit ev).
Proof. intros H w. exists [ev]. simpl. split; [reflexivity|]. now constructor. Qed.

Lemma frames_silent {A} (m : M A) :
  (forall w, log (snd (m w)) = log w) -> frames P m.
Proof. intros H w. exists []. now rewrite H, app_nil_r. Qed.
End Frames.

Lemma frames_weaken {A} (P P' : Event -> Prop) (m : M A) :
  (forall ev, P ev -> P' ev) -> frames P m -> frames P' m.
Proof.
  intros HP Hm w. destruct (Hm w) as (evs & H & F).
  exists evs. split; [assumption|]. eapply Forall_impl; eauto.
Qed.

Section Keeps.
Variable I : World -> Prop.

Lemma keeps_ret {A} (a : A) : keeps I (ret a).
Proof. now intros w. Qed.

Lemma keeps_raise {A} (e : Exn) : keeps I (@raise A e).
Proof. now intros w. Qed.

Lemma keeps_bind {A B} (m : M A) (k : A -> M B) :
  keeps I m -> (forall a, keeps I (k a)) -> keeps I (bind m k).
Proof.
  intros Hm Hk w Hw. unfold bind. specialize (Hm w Hw).
  destruct (m w) as [[a|e] w1]; simpl in *; [now apply Hk | assumption].
Qed.

Lemma keeps_try_except {A} (m : M A) (k : Exn -> M A) :
  keeps I m -> (forall e, keeps I (k e)) -> keeps I (try_except m k).
Proof.
  intros Hm Hk w Hw. unfold try_except. specialize (Hm w Hw).
  destruct (m w) as [[a|e] w1]; simpl in *; [assumption|].
  destruct (is_Exception e); [now apply Hk | assumption].
Qed.
End Keeps.

(* ================================================================= *)
(** ** Prompt construction and the responder *)

Lemma answer_prompt_head (c q : pystr) :
  exists tl, answer_prompt c q = 10%N :: 89%N :: tl.
Proof. eexists. unfold answer_prompt. reflexivity. Qed.

Lemma summary_prompt_head (topic c : pystr) :
  exists tl, summary_prompt topic c = 10%N :: 83%N :: tl.
Proof. eexists. unfold summary_prompt. reflexivity. Qed.

Lemma prompts_differ (topic c q : pystr) :
  answer_prompt c q <> summary_prompt topic c.
Proof.
  destruct (answer_prompt_head c q) as [ta Ha].
  destruct (summary_prompt_head topic c) as [ts Hs].
  rewrite Ha, Hs. discriminate.
Qed.

Lemma answer_prompt_split (q : pystr) :
  exists pre post, forall c, answer_prompt c q = pre ++ c ++ post.
Proof.
  exists (nl ++ py "You are an AI assistant. Based on the Wikipedia content below,"
          ++ nl ++ py "answer the question clearly and concisely."
          ++ nl ++ nl ++ py "Wikipedia content:" ++ nl ++ triple_quote),
         (triple_quote ++ nl ++ nl ++ py "Question: " ++ q
          ++ nl ++ py "Answer:" ++ nl).
  intros c. unfold answer_prompt. rewrite <- !app_assoc. reflexivity.
Qed.

Lemma summary_prompt_split (topic : pystr) :
  exists pre post, forall c, summary_prompt topic c = pre ++ c ++ post.
Proof.
  exists (nl ++ py "Summarize the following Wikipedia content about '" ++ topic
          ++ py "' in a clear,"
          ++ nl ++ py "structured, and easy-to-read manner."
          ++ nl ++ nl ++ py "Wikipedia content:" ++ nl ++ triple_quote),
         (triple_quote ++ nl ++ nl ++ py "Summary:" ++ nl).
  intros c. unfold summary_prompt. rewrite <- !app_assoc. reflexivity.
Qed.

Lemma build_prompt_split (topic : pystr) (question : option pystr) :
  exists pre post, forall c, build_prompt topic c question = pre ++ c ++ post.
Proof.
  unfold build_prompt. destruct question as [[|x q]|]; simpl.
  - apply summary_prompt_split.
  - apply answer_prompt_split.
  - apply summary_prompt_split.
Qed.

Section Responder.
Context {ext : Externals}.

(** One call of [summarize_content], spelled out. *)
Lemma summarize_content_eval (h : Handle) (topic c : pystr)
    (q : option pystr) (w : World) :
  summarize_content h topic c q w =
  let p := build_prompt topic c q in
  let w' := after w 1 [LlamaCall h p 512 (6 # 10)] in
  match ext_llama_call (clock w) h p 512 (6 # 10) with
  | inl e => (Raise e, w')
  | inr out =>
      match choices out with
      | x :: _ => (Return (strip (text x)), w')
      | [] => (Raise (mkExn IndexError (py "list index out of range")), w')
      end
  end.
Proof.
  unfold summarize_content, llama_call, bind, emit, get_clock, tick,
    getitem0, ret, raise, after; simpl.
  destruct (ext_llama_call _ _ _ _ _) as [e|out]; [reflexivity|].
  destruct (choices out); reflexivity.
Qed.

Lemma summarize_content_log (h : Handle) (topic c : pystr)
    (q : option pystr) (w : World) :
  log (snd (summarize_content h topic c q w)) =
  log w ++ [LlamaCall h (build_prompt topic c q) 512 (6 # 10)].
Proof.
  rewrite summarize_content_eval; simpl.
  destruct (ext_llama_call _ _ _ _ _) as [e|out]; [reflexivity|].
  destruct (choices out); reflexivity.
Qed.

Lemma summarize_content_frames (P : Event -> Prop) (h : Handle)
    (topic c : pystr) (q : option pystr) :
  P (LlamaCall h (build_prompt topic c q) 512 (6 # 10)) ->
  frames P (summarize_content h topic c q).
Proof.
  intros HP w. eexists. split; [apply summarize_content_log|].
  now constructor.
Qed.

(** C4: without a question the engine receives the summarize template,
    with a non-empty question it receives the answer template, and for
    the same topic and content the two prompts are different strings. *)
Theorem summarize_content_template_choice (h : Handle)
    (topic c q : pystr) (w : World) :
  q <> [] ->
  log (snd (summarize_content h topic c None w)) =
    log w ++ [LlamaCall h (summary_prompt topic c) 512 (6 # 10)] /\
  log (snd (summarize_content h topic c (Some q) w)) =
    log w ++ [LlamaCall h (answer_prompt c q) 512 (6 # 10)] /\
  answer_prompt c q <> summary_prompt topic c.
Proof.
  intros Hq. rewrite !summarize_content_log.
  destruct q as [|x q]; [congruence|]. simpl.
  repeat split. apply prompts_differ.
Qed.

(** C8: when the engine answers with a completion, [summarize_content]
    returns the text of its first choice stripped of leading and trailing
    white space: the text is white space, then the returned string, then
    white space, and the returned string neither starts nor ends with a
    white space character.  Stripping the returned string again, at either
    end or both, changes nothing. *)
Theorem summarize_content_stripped (h : Handle) (topic c : pystr)
    (q : option pystr) (w : World) (out : Completion) (x : Choice)
    (rest : list Choice) :
  ext_llama_call (clock w) h (build_prompt topic c q) 512 (6 # 10) = inr out ->
  choices out = x :: rest ->
  exists r pre post,
    fst (summarize_content h topic c q w) = Return r /\
    r = strip (text x) /\
    text x = pre ++ r ++ post /\
    Forall (fun ch => isspace ch = true) pre /\
    Forall (fun ch => isspace ch = true) post /\
    (forall ch, hd_error r = Some ch -> isspace ch = false) /\
    (forall ch, hd_error (rev r) = Some ch -> isspace ch = false) /\
    strip r = r /\ lstrip r = r /\ rstrip r = r.
Proof.
  intros Hcall Hch.
  destruct (lstrip_split (text x)) as (pre & Hpre & Fpre).
  destruct (rstrip_split (lstrip (text x))) as (post & Hpost & Fpost).
  exists (strip (text x)), pre, post.
  rewrite summarize_content_eval; simpl. rewrite Hcall, Hch; simpl.
  split; [reflexivity|]. split; [reflexivity|].
  split; [unfold strip; now rewrite <- Hpost|].
  split; [assumption|]. split; [assumption|].
  split; [intros ch; apply lstrip_fixed_head, lstrip_strip|].
  split; [intros ch; apply rstrip_fixed_last, rstrip_strip|].
  split; [apply strip_idem|].
  split; [apply lstrip_strip | apply rstrip_strip].
Qed.

(** C9: the prompt is a fixed prefix, the content exactly as given, and a
    fixed suffix; prefix and suffix do not depend on the content, so
    nothing in the content is escaped or changed, whatever it contains. *)
Theorem prompt_contains_content_verbatim (topic : pystr)
    (question : option pystr) :
  exists pre post,
    forall (c : pystr) (h : Handle) (w : World),
      build_prompt topic c question = pre ++ c ++ post /\
      log (snd (summarize_content h topic c question w)) =
        log w ++ [LlamaCall h (pre ++ c ++ post) 512 (6 # 10)].
Proof.
  destruct (build_prompt_split topic question) as (pre & post & H).
  exists pre, post. intros c h w.
  rewrite summarize_content_log, H. now split.
Qed.
End Responder.

(** C10: the prompt handed to the engine is a function of topic, content
    and question alone: two calls with equal inputs, whatever the handle,
    the world and the surroundings, pass the same prompt. *)
Theorem prompt_deterministic (ext1 ext2 : Externals) (h1 h2 : Handle)
    (w1 w2 : World) (topic c : pystr) (question : option pystr) :
  exists p,
    log (snd (@summarize_content ext1 h1 topic c question w1)) =
      log w1 ++ [LlamaCall h1 p 512 (6 # 10)] /\
    log (snd (@summarize_content ext2 h2 topic c question w2)) =
      log w2 ++ [LlamaCall h2 p 512 (6 # 10)].
Proof.
  exists (build_prompt topic c question).
  split; apply summarize_content_log.
Qed.

(* ================================================================= *)
(** ** Events of the script's parts *)

Ltac frames_step :=
  match goal with
  | |- frames _ (summarize_content _ _ _ _) => apply summarize_content_frames
  | |- frames _ (bind _ _) => apply frames_bind; [|intros ?]
  | |- frames _ (try_except _ _) => apply frames_try_except; [|intros ?]
  | |- frames _ (ret _) => apply frames_ret
  | |- frames _ (raise _) => apply frames_raise
  | |- frames _ (emit _) => apply frames_emit
  | |- frames _ (st _ _) => apply frames_emit
  | |- frames _ (if ?b then _ else _) => destruct b
  | |- frames _ (match ?x with _ => _ end) => destruct x
  | |- frames _ _ => apply frames_silent; reflexivity
  end.

Ltac keeps_step :=
  match goal with
  | |- keeps _ (bind _ _) => apply keeps_bind; [|intros ?]
  | |- keeps _ (try_except _ _) => apply keeps_try_except; [|intros ?]
  | |- keeps _ (ret _) => apply keeps_ret
  | |- keeps _ (raise _) => apply keeps_raise
  | |- keeps _ (if ?b then _ else _) => destruct b
  | |- keeps _ (match ?x with _ => _ end) => destruct x
  end.

Section Fetcher.
Context {ext : Externals}.

(** One call of [get_wiki_content], spelled out. *)
Lemma get_wiki_content_eval (topic : pystr) (w : World) :
  get_wiki_content topic w =
  match lookup (clock w) topic with
  | inr c =>
      (Return (Some (slice_to 6000 c)), after w 1 [WikipediaLookup topic])
  | inl e =>
      if is_Exception e
      then (Return None,
            after w 1 [WikipediaLookup topic;
                       St StError (py "❌ Error fetching content: " ++ exn_str e)])
      else (Raise e, after w 1 [WikipediaLookup topic])
  end.
Proof.
  unfold get_wiki_content, try_except, wikipedia_page, content, lookup,
    bind, emit, get_clock, tick, st, emit, ret, raise, after; simpl.
  destruct (ext_wikipedia_page (clock w) topic) as [e|page]; simpl.
  - destruct (is_Exception e); [|reflexivity].
    now rewrite <- app_assoc.
  - destruct (page_content page) as [e|c]; simpl; [|reflexivity].
    destruct (is_Exception e); [|reflexivity].
    now rewrite <- app_assoc.
Qed.

(** C3: when the lookup fails with an exception [e] (page missing, title
    ambiguous, network down, ...), [get_wiki_content] returns [None]
    instead of raising, and the events it adds hold exactly one
    diagnostic, the [st.error] with the text of [e]. *)
Theorem get_wiki_content_failure (topic : pystr) (w : World) (e : Exn) :
  lookup (clock w) topic = inl e ->
  is_Exception e = true ->
  exists w' evs,
    get_wiki_content topic w = (Return None, w') /\
    log w' = log w ++ evs /\
    filter is_diagnostic evs =
      [St StError (py "❌ Error fetching content: " ++ exn_str e)].
Proof.
  intros Hl He. rewrite get_wiki_content_eval, Hl, He.
  eexists _, _. split; [reflexivity|]. split; reflexivity.
Qed.

Lemma get_wiki_content_None_inv (topic : pystr) (w : World) :
  fst (get_wiki_content topic w) = Return None ->
  exists e, lookup (clock w) topic = inl e /\ is_Exception e = true.
Proof.
  rewrite get_wiki_content_eval.
  destruct (lookup (clock w) topic) as [e|c]; [|discriminate].
  destruct (is_Exception e) eqn:E; [|discriminate].
  intros _. now exists e.
Qed.
End Fetcher.

Section Page.
Context {ext : Externals}.

(** The block under [if topic:], up to the point where the article text
    is known. *)
Lemma topic_block_eval (i : Inputs) (w : World) :
  topic_block i w =
  if truthy (topic_input i) then
    match get_wiki_content (topic_input i) (after w 0 [spinner_fetch]) with
    | (Return (Some text), w1) =>
        if truthy text then content_block i (topic_input i) text w1
        else (Return tt, w1)
    | (Return None, w1) => (Return tt, w1)
    | (Raise e, w1) => (Raise e, w1)
    end
  else (Return tt, w).
Proof.
  unfold topic_block. destruct (truthy (topic_input i)); [|reflexivity].
  unfold with_spinner, st. unfold bind at 1 2. rewrite emit_eval.
  destruct (get_wiki_content _ _) as [[[text|]|e] w1]; try reflexivity.
  destruct (truthy text); reflexivity.
Qed.

Lemma built_from_call (topic text : pystr) (q : option pystr)
    (h : Handle) (mt : Z) (temp : Q) :
  built_from topic text (LlamaCall h (build_prompt topic text q) mt temp).
Proof. intros h' p' mt' temp' Heq. exists q. congruence. Qed.

Lemma built_from_other (topic text : pystr) (ev : Event) :
  is_llama_call ev = false -> built_from topic text ev.
Proof. intros H h p mt temp ->. discriminate. Qed.

Lemma content_block_prompts (i : Inputs) (topic text : pystr) :
  frames (built_from topic text) (content_block i topic text).
Proof.
  unfold content_block, choose_action, with_spinner, load_model, st_cache_resource, Llama,
    get_clock, get_fs, get_cache.
  repeat frames_step;
    first [apply built_from_call | apply built_from_other; reflexivity].
Qed.
(** C2: when the topic resolves to a page with text [c],
    [get_wiki_content] returns [c[:6000]], a string of at most 6000
    characters, and every prompt the page then sends to the engine is
    built from that truncated text. *)
Theorem get_wiki_content_truncated (topic : pystr) (w : World) (c : pystr) :
  lookup (clock w) topic = inr c ->
  exists text,
    get_wiki_content topic w =
      (Return (Some text), after w 1 [WikipediaLookup topic]) /\
    text = slice_to 6000 c /\
    (len text <= 6000)%Z /\
    forall i, topic_input i = topic ->
      exists evs,
        log (snd (topic_block i w)) = log w ++ evs /\
        Forall (built_from topic text) evs.
Proof.
  intros H. exists (slice_to 6000 c).
  split; [now rewrite get_wiki_content_eval, H|].
  split; [reflexivity|].
  split; [apply slice_to_length; lia|].
  intros i <-. rewrite topic_block_eval.
  destruct (truthy (topic_input i));
    [|exists []; split; [now rewrite app_nil_r | constructor]].
  rewrite get_wiki_content_eval.
  change (clock (after w 0 [spinner_fetch])) with (clock w). rewrite H.
  rewrite after_after.
  set (w1 := after w _ _).
  assert (Hw1 : log w1 = log w ++ [spinner_fetch; WikipediaLookup (topic_input i)])
    by reflexivity.
  assert (F1 : Forall (built_from (topic_input i) (slice_to 6000 c))
                 [spinner_fetch; WikipediaLookup (topic_input i)])
    by (repeat constructor; now apply built_from_other).
  destruct (truthy (slice_to 6000 c)); [|eauto].
  destruct (content_block_prompts i (topic_input i) (slice_to 6000 c) w1)
    as (evs & Hl & F).
  eexists. rewrite Hl, Hw1, <- app_assoc. split; [reflexivity|].
  apply Forall_app. now split.
Qed.

Lemma setup_no_model (i : Inputs) : frames no_model (setup i).
Proof.
  unfold setup, download_model, os_makedirs, os_path_exists,
    gdown_download, get_fs, get_clock.
  repeat frames_step; now split.
Qed.

Lemma get_wiki_content_no_model (topic : pystr) :
  frames no_model (get_wiki_content topic).
Proof.
  unfold get_wiki_content, wikipedia_page, content, get_clock.
  repeat frames_step; now split.
Qed.

Lemma footer_eval (w : World) :
  footer w =
  (Return tt,
   after w 0 [St StMarkdown (py "---");
              St StCaption (py "Developed with ❤️ using Streamlit + Phi-2")]).
Proof.
  unfold footer, st, bind. rewrite !emit_eval, after_after. reflexivity.
Qed.

(** C6: when the fetch the page makes for the entered topic returns
    [None], the run ends normally and adds no event that reaches the
    model: no load and no generation call. *)
Theorem no_model_call_when_fetch_fails (i : Inputs) (w w1 : World) :
  setup i w = (Return tt, w1) ->
  fst (get_wiki_content (topic_input i) (after w1 0 [spinner_fetch])) =
    Return None ->
  exists w' evs,
    app i w = (Return tt, w') /\
    log w' = log w ++ evs /\
    Forall no_model evs.
Proof.
  intros Hs Hf. unfold app. unfold bind at 1. rewrite Hs.
  destruct (setup_no_model i w) as (e0 & H0 & F0). rewrite Hs in H0.
  simpl in H0.
  unfold bind. rewrite topic_block_eval.
  assert (Ff : Forall no_model
                 [St StMarkdown (py "---");
                  St StCaption (py "Developed with ❤️ using Streamlit + Phi-2")])
    by (repeat constructor).
  destruct (truthy (topic_input i)).
  - destruct (get_wiki_content_no_model (topic_input i)
                (after w1 0 [spinner_fetch])) as (e1 & H1 & F1).
    destruct (get_wiki_content _ _) as [[[text|]|e] w2];
      simpl in Hf; try discriminate.
    simpl in H1. rewrite footer_eval.
    eexists _, _. split; [reflexivity|].
    simpl. rewrite H1. simpl. rewrite H0, <- !app_assoc.
    split; [reflexivity|].
    repeat (apply Forall_app; split); try assumption.
    repeat constructor.
  - rewrite footer_eval.
    eexists _, _. split; [reflexivity|].
    simpl. rewrite H0, <- !app_assoc. split; [reflexivity|].
    apply Forall_app. now split.
Qed.

Lemma ask_is_not_summarize :
  pystr_eqb (radio_label AskQuestion) (py "Summarize Topic") = false.
Proof. vm_compute. reflexivity. Qed.

(** C7: in Ask-a-Question mode with an empty question field, a run of
    the page adds no generation call to the log, whatever the other
    widgets return, the Get Answer button included. *)
Theorem empty_question_never_generates (i : Inputs) (w : World) :
  action_choice i = AskQuestion ->
  question_input i = [] ->
  exists evs,
    log (snd (app i w)) = log w ++ evs /\
    Forall no_call evs.
Proof.
  intros Ha Hq. revert w. change (frames no_call (app i)).
  unfold app. apply frames_bind;
    [eapply frames_weaken; [|apply setup_no_model]; now intros ev [_ H]|].
  intros _. apply frames_bind; [|intros _; unfold footer; now repeat frames_step].
  unfold topic_block, with_spinner.
  destruct (truthy (topic_input i)); [|apply frames_ret].
  apply frames_bind.
  - apply frames_bind; [now apply frames_emit|intros _].
    eapply frames_weaken; [|apply get_wiki_content_no_model].
    now intros ev [_ H].
  - intros [text|]; [|apply frames_ret].
    destruct (truthy text); [|apply frames_ret].
    unfold content_block, choose_action, with_spinner, load_model,
      st_cache_resource, Llama, get_clock, get_fs, get_cache.
    rewrite Ha, Hq, ask_is_not_summarize, andb_false_r.
    repeat frames_step; reflexivity.
Qed.
End Page.

(* ================================================================= *)
(** ** The model file *)

Lemma split_MODEL_DIR : split_path MODEL_DIR = [MODEL_DIR].
Proof. vm_compute. reflexivity. Qed.

Lemma split_MODEL_PATH : split_path MODEL_PATH = [MODEL_DIR; MODEL_FILE].
Proof. vm_compute. reflexivity. Qed.

Lemma assoc_set_same (k : pystr) (v : Node) (es : list (pystr * Node)) :
  assoc k es = Some v -> assoc_set k v es = es.
Proof.
  induction es as [|[k' n] es IH]; simpl; [discriminate|].
  destruct (pystr_eqb k k'); intros H.
  - now injection H as ->.
  - now rewrite IH.
Qed.

Lemma assoc_assoc_set (k : pystr) (v : Node) (es : list (pystr * Node)) :
  assoc k (assoc_set k v es) = Some v.
Proof.
  induction es as [|[k' n] es IH]; simpl.
  - now rewrite pystr_eqb_refl.
  - destruct (pystr_eqb k k') eqn:E; simpl; now rewrite E.
Qed.

(** In a directory that holds the model file, [models] is a directory
    already and creating it changes nothing. *)
Lemma model_present_inv (root : Node) :
  fs_exists MODEL_PATH root = true ->
  exists sub, fs_lookup [MODEL_DIR] root = Some (Dir sub).
Proof.
  unfold fs_exists. rewrite split_MODEL_PATH.
  destruct root as [|es]; simpl; [discriminate|].
  destruct (assoc MODEL_DIR es) as [[|sub]|]; try discriminate.
  intros _. now exists sub.
Qed.

(** What an absent model file and a directory that exists or can be made
    look like. *)
Lemma model_absent_inv (root root1 : Node) :
  fs_exists MODEL_PATH root = false ->
  fs_mkdirs [MODEL_DIR] root = Some root1 ->
  exists es sub,
    root = Dir es /\
    root1 = Dir (assoc_set MODEL_DIR (Dir sub) es) /\
    assoc MODEL_FILE sub = None /\
    (assoc MODEL_DIR es = Some (Dir sub) \/
     assoc MODEL_DIR es = None /\ sub = []).
Proof.
  unfold fs_exists. rewrite split_MODEL_PATH.
  destruct root as [|es]; simpl; [discriminate|].
  destruct (assoc MODEL_DIR es) as [[|sub]|] eqn:E; simpl; try discriminate.
  - destruct (assoc MODEL_FILE sub) eqn:F; [discriminate|].
    intros _ H. injection H as <-. exists es, sub. repeat split; auto.
  - intros _ H. injection H as <-. exists es, []. repeat split; auto.
Qed.

Section Provisioner.
Context {ext : Externals}.

Lemma bind_eval {A B} (m : M A) (k : A -> M B) (w : World) :
  bind m k w =
  match m w with
  | (Return a, w') => k a w'
  | (Raise e, w') => (Raise e, w')
  end.
Proof. reflexivity. Qed.

Lemma os_makedirs_eval (dir : pystr) (w : World) :
  os_makedirs dir true w =
  match fs_lookup (split_path dir) (fs w) with
  | Some (Dir _) => (Return tt, after w 0 [Makedirs dir])
  | Some File =>
      (Raise (mkExn FileExistsError (file_exists_str dir)),
       after w 0 [Makedirs dir])
  | None =>
      match fs_mkdirs (split_path dir) (fs w) with
      | Some root' =>
          (Return tt,
           mkWorld root' (resource_cache w) (next_obj w) (clock w)
                   (log w ++ [Makedirs dir]))
      | None =>
          (Raise (mkExn NotADirectoryError (not_a_directory_str dir)),
           after w 0 [Makedirs dir])
      end
  end.
Proof.
  unfold os_makedirs, bind, emit, get_fs; simpl.
  destruct (fs_lookup _ _) as [[|sub]|]; try reflexivity.
  destruct (fs_mkdirs _ _); reflexivity.
Qed.

Lemma gdown_download_eval (url path : pystr) (quiet : bool) (w : World) :
  gdown_download url path quiet w =
  match ext_gdown (clock w) url with
  | Some e => (Raise e, after w 1 [GdownDownload url path])
  | None =>
      match fs_write (split_path path) (fs w) with
      | Some root' =>
          (Return path,
           mkWorld root' (resource_cache w) (next_obj w) (S (clock w))
                   (log w ++ [GdownDownload url path]))
      | None =>
          (Raise (mkExn FileNotFoundError path),
           after w 1 [GdownDownload url path])
      end
  end.
Proof.
  unfold gdown_download, bind, emit, get_clock, tick, get_fs; simpl.
  destruct (ext_gdown _ _); [reflexivity|].
  destruct (fs_write _ _); reflexivity.
Qed.

(** C5: [download_model] looks for the model file at [MODEL_PATH].  When
    it is there, the files stay as they are, nothing is downloaded and
    the only effect is the status line; when it is missing, the
    directory [MODEL_DIR] exists afterwards and [gdown] is asked for
    [MODEL_DRIVE_URL] with target [MODEL_PATH]: a successful transfer
    leaves the file in place, a failed one raises its error. *)
Theorem download_model_provisions (w : World) :
  (fs_exists MODEL_PATH (fs w) = true ->
   download_model w =
     (Return tt, after w 0 [Makedirs MODEL_DIR; St StInfo msg_available]))
  /\
  (fs_exists MODEL_PATH (fs w) = false ->
   forall root1,
     fs_mkdirs (split_path MODEL_DIR) (fs w) = Some root1 ->
     exists root2,
       fs_exists MODEL_DIR root1 = true /\
       fs_write (split_path MODEL_PATH) root1 = Some root2 /\
       fs_exists MODEL_PATH root2 = true /\
       download_model w =
         match ext_gdown (clock w) MODEL_DRIVE_URL with
         | None =>
             (Return tt,
              mkWorld root2 (resource_cache w) (next_obj w) (S (clock w))
                (log w ++ [Makedirs MODEL_DIR; St StInfo msg_downloading;
                           GdownDownload MODEL_DRIVE_URL MODEL_PATH;
                           St StSuccess msg_downloaded]))
         | Some e =>
             (Raise e,
              mkWorld root1 (resource_cache w) (next_obj w) (S (clock w))
                (log w ++ [Makedirs MODEL_DIR; St StInfo msg_downloading;
                           GdownDownload MODEL_DRIVE_URL MODEL_PATH]))
         end).
Proof.
  split.
  - intros H. destruct (model_present_inv _ H) as (sub & Hd).
    unfold download_model.
    rewrite bind_eval, os_makedirs_eval, split_MODEL_DIR, Hd.
    rewrite bind_eval. unfold os_path_exists, get_fs, bind, ret.
    change (fs (after w 0 [Makedirs MODEL_DIR])) with (fs w).
    rewrite H. cbv beta iota. unfold negb, st. rewrite emit_eval, after_after.
    reflexivity.
  - intros H root1 Hm. rewrite split_MODEL_DIR in Hm.
    destruct (model_absent_inv _ H Hm) as (es & sub & Hr & -> & Hf & Hcase).
    set (es1 := assoc_set MODEL_DIR (Dir sub) es) in *.
    assert (Hd1 : assoc MODEL_DIR es1 = Some (Dir sub))
      by apply assoc_assoc_set.
    exists (Dir (assoc_set MODEL_DIR (Dir (assoc_set MODEL_FILE File sub)) es1)).
    assert (Hnot : fs_exists MODEL_PATH (Dir es1) = false).
    { unfold fs_exists. rewrite split_MODEL_PATH. simpl.
      now rewrite Hd1, Hf. }
    assert (Hw : fs_write (split_path MODEL_PATH) (Dir es1) =
                 Some (Dir (assoc_set MODEL_DIR
                              (Dir (assoc_set MODEL_FILE File sub)) es1))).
    { rewrite split_MODEL_PATH. simpl. now rewrite Hd1, Hf. }
    split; [|split; [|split]].
    + unfold fs_exists. rewrite split_MODEL_DIR. simpl. now rewrite Hd1.
    + exact Hw.
    + unfold fs_exists. rewrite split_MODEL_PATH. simpl.
      now rewrite !assoc_assoc_set.
    + assert (Hmk : os_makedirs MODEL_DIR true w =
                    (Return tt,
                     mkWorld (Dir es1) (resource_cache w) (next_obj w)
                             (clock w) (log w ++ [Makedirs MODEL_DIR]))).
      { rewrite os_makedirs_eval, split_MODEL_DIR, Hr. simpl fs_lookup.
        destruct Hcase as [Hc|[Hc ->]]; rewrite Hc.
        - unfold after. subst es1.
          now rewrite (assoc_set_same _ _ Hc), <- Hr.
        - simpl. rewrite Hc. reflexivity. }
      unfold download_model.
      rewrite bind_eval, Hmk, bind_eval.
      unfold os_path_exists, get_fs, bind at 1, ret. cbn [fs].
      rewrite Hnot. cbv beta iota. unfold negb, st.
      rewrite bind_eval, emit_eval, bind_eval, gdown_download_eval.
      cbn [fs clock after]. rewrite Hw.
      change (0 + clock w)%nat with (clock w).
      destruct (ext_gdown (clock w) MODEL_DRIVE_URL) as [e|].
      * unfold after; simpl. now rewrite <- !app_assoc.
      * rewrite emit_eval. unfold after; simpl. now rewrite <- !app_assoc.
Qed.
End Provisioner.

(* ================================================================= *)
(** ** The cached model handle *)

Section Cache.
Context {ext : Externals}.

Lemma load_model_hit (w : World) (h : Handle) :
  resource_cache w = Some h -> load_model w = (Return h, w).
Proof.
  intros H. unfold load_model, st_cache_resource, bind, get_cache.
  now rewrite H.
Qed.

Lemma load_model_returns (w w1 : World) (h : Handle) :
  load_model w = (Return h, w1) -> resource_cache w1 = Some h.
Proof.
  unfold load_model, st_cache_resource, Llama, bind, get_cache, get_clock,
    tick, get_fs, fresh_obj, emit, set_cache, ret, raise; simpl.
  destruct (resource_cache w) as [h0|] eqn:Ec; simpl.
  - intros H. injection H as <- <-. assumption.
  - destruct (fs_exists MODEL_PATH (fs w)); simpl;
      [destruct (ext_llama_load _ _ _ _); simpl|]; try discriminate.
    intros H. now injection H as <- <-.
Qed.

Lemma load_model_keeps_cache_inv : keeps cache_inv load_model.
Proof.
  intros w Hw. unfold cache_inv in *.
  unfold load_model, st_cache_resource, Llama, bind, get_cache, get_clock,
    tick, get_fs, fresh_obj, emit, set_cache, ret, raise; simpl.
  destruct (resource_cache w) as [h0|] eqn:Ec; simpl.
  - now rewrite Ec.
  - destruct (fs_exists MODEL_PATH (fs w)); simpl;
      [destruct (ext_llama_load _ _ _ _); simpl|];
      rewrite constructed_app, Hw; try rewrite Ec; reflexivity.
Qed.

Lemma load_model_keeps_cached (h : Handle) :
  keeps (fun w => resource_cache w = Some h) load_model.
Proof. intros w Hw. now rewrite (load_model_hit _ Hw). Qed.

(** An invariant that only depends on the log and the cache, that events
    other than a successful construction leave alone, and that
    [load_model] keeps, holds throughout a session. *)
Section Invariant.
Variable I : World -> Prop.
Hypothesis I_emit :
  forall ev w, constructed [ev] = [] -> I w -> I (snd (emit ev w)).
Hypothesis I_frame :
  forall w w',
    log w' = log w -> resource_cache w' = resource_cache w ->
    I w -> I w'.
Hypothesis I_load : keeps I load_model.

Lemma keeps_emit (ev : Event) : constructed [ev] = [] -> keeps I (emit ev).
Proof. intros H w. now apply I_emit. Qed.

Lemma keeps_frame {A} (m : M A) :
  (forall w, log (snd (m w)) = log w /\
             resource_cache (snd (m w)) = resource_cache w) ->
  keeps I m.
Proof. intros H w. destruct (H w). now apply I_frame. Qed.

Ltac inv_step :=
  first
    [ keeps_step
    | apply I_load
    | apply keeps_emit; reflexivity
    | apply keeps_frame; intros; split; reflexivity ].

Lemma app_keeps (i : Inputs) : keeps I (app i).
Proof.
  unfold app, setup, topic_block, content_block, choose_action, footer,
    with_spinner, download_model, get_wiki_content, summarize_content,
    os_makedirs, os_path_exists, gdown_download, wikipedia_page, content,
    llama_call, getitem0, st, get_fs, get_clock.
  repeat inv_step.
Qed.

Lemma rerun_keeps (i : Inputs) (w : World) : I w -> I (rerun w i).
Proof.
  intros Hw. unfold rerun. pose proof (app_keeps i Hw) as H.
  destruct (app i w) as [[[]|e] w1]; simpl in H; [assumption|].
  now apply I_emit.
Qed.

Lemma session_keeps (runs : list Inputs) (w : World) :
  I w -> I (session runs w).
Proof.
  revert w. induction runs as [|i runs IH]; intros w Hw; simpl;
    [assumption|].
  apply IH. now apply rerun_keeps.
Qed.
End Invariant.

Lemma session_cache_inv (runs : list Inputs) (w : World) :
  cache_inv w -> cache_inv (session runs w).
Proof.
  apply session_keeps.
  - intros ev w0 Hev H. unfold cache_inv in *; simpl.
    now rewrite constructed_app, Hev, app_nil_r.
  - intros w0 w' Hl Hc H. unfold cache_inv in *. now rewrite Hl, Hc.
  - apply load_model_keeps_cache_inv.
Qed.

Lemma session_cached (runs : list Inputs) (w : World) (h : Handle) :
  resource_cache w = Some h -> resource_cache (session runs w) = Some h.
Proof.
  apply (@session_keeps (fun w => resource_cache w = Some h)).
  - now intros ev w0 _ H.
  - intros w0 w' _ Hc H. now rewrite Hc.
  - apply load_model_keeps_cached.
Qed.

Lemma call_load_model_hit (n : nat) (w : World) (h : Handle) :
  resource_cache w = Some h ->
  call_load_model n w = (repeat (Return h) n, w).
Proof.
  intros H. induction n as [|n IH]; simpl; [reflexivity|].
  now rewrite (load_model_hit _ H), IH.
Qed.

(** C1: in the life of a process, that is after any number of runs of the
    page from a fresh start, at most one handle has been constructed.  Once
    [load_model] has returned a handle [h], that handle is the only one
    constructed so far; any number of further calls return the same [h] and
    leave the world, log included, untouched, so nothing is loaded again;
    and however many more runs of the page follow, [h] remains the only
    handle ever constructed. *)
Theorem load_model_singleton (root : Node) (runs : list Inputs) :
  let w := session runs (initial_world root) in
  (List.length (constructed (log w)) <= 1)%nat /\
  forall (h : Handle) (w1 : World),
    load_model w = (Return h, w1) ->
    constructed (log w1) = [h] /\
    (forall n, call_load_model n w1 = (repeat (Return h) n, w1)) /\
    (forall more, constructed (log (session more w1)) = [h]).
Proof.
  intros w.
  assert (Hw : cache_inv w) by (apply session_cache_inv; reflexivity).
  split.
  - unfold cache_inv in Hw. rewrite Hw.
    destruct (resource_cache w); simpl; lia.
  - intros h w1 Hload.
    assert (Hc : resource_cache w1 = Some h)
      by exact (load_model_returns _ Hload).
    assert (Hi : cache_inv w1).
    { pose proof (load_model_keeps_cache_inv Hw) as H.
      now rewrite Hload in H. }
    split; [|split].
    + unfold cache_inv in Hi. now rewrite Hc in Hi.
    + intros n. now apply call_load_model_hit.
    + intros more.
      pose proof (session_cache_inv more Hi) as H. unfold cache_inv in H.
      now rewrite (session_cached more _ Hc) in H.
Qed.
End Cache.

(* ================================================================= *)
(** ** The theorems at work on concrete runs *)

Example py_decodes_utf8 :
  py "❌ ok" = [10060; 32; 111; 107]%N /\ py "⚙️" = [9881; 65039]%N.
Proof. split; vm_compute; reflexivity. Qed.

Example MODEL_PATH_value : MODEL_PATH = py "models/phi-2.Q4_K_M.gguf".
Proof. vm_compute. reflexivity. Qed.

Example strip_example :
  strip (nl ++ py "  A summary. " ++ nl) = py "A summary.".
Proof. vm_compute. reflexivity. Qed.

(** Content that holds the delimiter of the template goes in unchanged. *)
Example delimiter_in_content :
  summary_prompt (py "X") triple_quote =
  nl ++ py "Summarize the following Wikipedia content about 'X' in a clear,"
  ++ nl ++ py "structured, and easy-to-read manner."
  ++ nl ++ nl ++ py "Wikipedia content:"
  ++ nl ++ triple_quote ++ triple_quote ++ triple_quote
  ++ nl ++ nl ++ py "Summary:" ++ nl.
Proof. vm_compute. reflexivity. Qed.

(** Scenario: the topic resolves, Summarize is chosen and its button
    pressed; the run ends normally and the stripped summary is written
    just above the footer. *)
Example scenario_summarize :
  let r := @app Demo.online Demo.summarize_quantum
             (initial_world Demo.with_model) in
  fst r = Return tt /\
  nth_error (rev (log (snd r))) 2 = Some (St StWrite (py "A summary.")) /\
  constructed (log (snd r)) = [0%nat].
Proof. vm_compute. repeat split. Qed.

(** A failed load stores nothing: the next call tries again. *)
Example failed_load_is_retried :
  constructed (log (snd (@call_load_model Demo.offline 2
                           (initial_world Demo.with_model)))) = [] /\
  List.length (filter is_llama_init
                 (log (snd (@call_load_model Demo.offline 2
                              (initial_world Demo.with_model))))) = 2%nat.
Proof. split; vm_compute; reflexivity. Qed.

Lemma load_model_singleton_witness :
  let w := initial_world Demo.with_model in
  let w1 := snd (@load_model Demo.online w) in
  @load_model Demo.online w = (Return 0%nat, w1) /\
  constructed (log w1) = [0%nat] /\
  (forall n, @call_load_model Demo.online n w1 = (repeat (Return 0%nat) n, w1)) /\
  (forall more, constructed (log (@session Demo.online more w1)) = [0%nat]).
Proof.
  intros w w1.
  assert (H : @load_model Demo.online w = (Return 0%nat, w1))
    by (vm_compute; reflexivity).
  split; [exact H|].
  exact (proj2 (@load_model_singleton Demo.online Demo.with_model []) _ _ H).
Defined.

Lemma get_wiki_content_truncated_witness :
  @lookup Demo.online 0 Demo.quantum = inr Demo.article /\
  exists text,
    @get_wiki_content Demo.online Demo.quantum (initial_world Demo.empty_dir) =
      (Return (Some text),
       after (initial_world Demo.empty_dir) 1 [WikipediaLookup Demo.quantum]) /\
    text = slice_to 6000 Demo.article /\
    (len text <= 6000)%Z /\
    forall i, topic_input i = Demo.quantum ->
      exists evs,
        log (snd (@topic_block Demo.online i (initial_world Demo.empty_dir))) =
          log (initial_world Demo.empty_dir) ++ evs /\
        Forall (built_from Demo.quantum text) evs.
Proof.
  split; [reflexivity|].
  apply (@get_wiki_content_truncated Demo.online Demo.quantum
           (initial_world Demo.empty_dir) Demo.article).
  reflexivity.
Defined.

Lemma get_wiki_content_failure_witness :
  exists w' evs,
    @get_wiki_content Demo.offline Demo.nonsense
      (initial_world Demo.empty_dir) = (Return None, w') /\
    log w' = log (initial_world Demo.empty_dir) ++ evs /\
    filter is_diagnostic evs =
      [St StError (py "❌ Error fetching content: "
                   ++ Demo.page_error_str Demo.nonsense)].
Proof.
  apply (@get_wiki_content_failure Demo.offline Demo.nonsense
           (initial_world Demo.empty_dir)
           (mkExn PageError (Demo.page_error_str Demo.nonsense)));
    reflexivity.
Defined.

Lemma summarize_content_template_choice_witness :
  py "Who built it?" <> [] /\
  log (snd (@summarize_content Demo.online 0%nat Demo.quantum (py "text") None
              (initial_world Demo.with_model))) =
    [LlamaCall 0%nat (summary_prompt Demo.quantum (py "text")) 512 (6 # 10)] /\
  log (snd (@summarize_content Demo.online 0%nat Demo.quantum (py "text")
              (Some (py "Who built it?")) (initial_world Demo.with_model))) =
    [LlamaCall 0%nat (answer_prompt (py "text") (py "Who built it?")) 512 (6 # 10)] /\
  answer_prompt (py "text") (py "Who built it?") <>
    summary_prompt Demo.quantum (py "text").
Proof.
  assert (H : py "Who built it?" <> []) by (vm_compute; discriminate).
  split; [exact H|].
  exact (@summarize_content_template_choice Demo.online 0%nat Demo.quantum
           (py "text") (py "Who built it?") (initial_world Demo.with_model) H).
Defined.

Lemma download_model_provisions_witness :
  @download_model Demo.online (initial_world Demo.with_model) =
    (Return tt,
     after (initial_world Demo.with_model) 0
       [Makedirs MODEL_DIR; St StInfo msg_available]) /\
  exists root2,
    fs_exists MODEL_DIR (Dir [(MODEL_DIR, Dir [])]) = true /\
    fs_write (split_path MODEL_PATH) (Dir [(MODEL_DIR, Dir [])]) = Some root2 /\
    fs_exists MODEL_PATH root2 = true /\
    @download_model Demo.online (initial_world Demo.empty_dir) =
      (Return tt,
       mkWorld root2 None 0 1
         [Makedirs MODEL_DIR; St StInfo msg_downloading;
          GdownDownload MODEL_DRIVE_URL MODEL_PATH;
          St StSuccess msg_downloaded]).
Proof.
  split.
  - apply (proj1 (@download_model_provisions Demo.online
                    (initial_world Demo.with_model))).
    vm_compute. reflexivity.
  - apply (proj2 (@download_model_provisions Demo.online
                    (initial_world Demo.empty_dir)));
      vm_compute; reflexivity.
Defined.

Lemma no_model_call_when_fetch_fails_witness :
  exists w' evs,
    @app Demo.offline Demo.ask_nonsense (initial_world Demo.with_model) =
      (Return tt, w') /\
    log w' = log (initial_world Demo.with_model) ++ evs /\
    Forall no_model evs.
Proof.
  apply (@no_model_call_when_fetch_fails Demo.offline Demo.ask_nonsense
           (initial_world Demo.with_model)
           (snd (@setup Demo.offline Demo.ask_nonsense
                   (initial_world Demo.with_model))));
    vm_compute; reflexivity.
Defined.

Lemma empty_question_never_generates_witness :
  exists evs,
    log (snd (@app Demo.online Demo.ask_empty (initial_world Demo.with_model))) =
      log (initial_world Demo.with_model) ++ evs /\
    Forall no_call evs.
Proof.
  apply (@empty_question_never_generates Demo.online Demo.ask_empty
           (initial_world Demo.with_model)); reflexivity.
Defined.

Lemma summarize_content_stripped_witness :
  exists r pre post,
    fst (@summarize_content Demo.online 0%nat Demo.quantum (py "text") None
           (initial_world Demo.with_model)) = Return r /\
    r = strip (nl ++ py " A summary. " ++ nl) /\
    nl ++ py " A summary. " ++ nl = pre ++ r ++ post /\
    Forall (fun ch => isspace ch = true) pre /\
    Forall (fun ch => isspace ch = true) post /\
    (forall ch, hd_error r = Some ch -> isspace ch = false) /\
    (forall ch, hd_error (rev r) = Some ch -> isspace ch = false) /\
    strip r = r /\ lstrip r = r /\ rstrip r = r.
Proof.
  apply (@summarize_content_stripped Demo.online 0%nat Demo.quantum (py "text")
           None (initial_world Demo.with_model)
           (mkCompletion [mkChoice (nl ++ py " A summary. " ++ nl)])
           (mkChoice (nl ++ py " A summary. " ++ nl)) []);
    reflexivity.
Defined.

(* ================================================================= *)
(** ** More about the fetcher *)

Section FetcherMore.
Context {ext : Externals}.

(** X1: when the lookup succeeds, what [get_wiki_content] returns is a
    prefix of the article text: the whole text when it has at most 6000
    characters, its first 6000 characters otherwise. *)
Theorem get_wiki_content_prefix (topic : pystr) (w : World) (c : pystr) :
  lookup (clock w) topic = inr c ->
  exists text rest,
    fst (get_wiki_content topic w) = Return (Some text) /\
    c = text ++ rest /\
    ((len c <= 6000)%Z -> text = c /\ rest = []) /\
    ((6000 < len c)%Z -> len text = 6000%Z).
Proof.
  intros H. rewrite get_wiki_content_eval, H.
  change (slice_to 6000 c) with (firstn (Z.to_nat 6000) c).
  exists (firstn (Z.to_nat 6000) c), (skipn (Z.to_nat 6000) c).
  split; [reflexivity|]. split; [now rewrite firstn_skipn|].
  unfold len. split; intros Hl.
  - split; [apply firstn_all2 | apply skipn_all2]; lia.
  - rewrite length_firstn. lia.
Qed.

(** X2: [except Exception] does not catch what derives from
    [BaseException] only: when the lookup is cut short by such an
    exception, [get_wiki_content] raises it, shows no diagnostic, and the
    block under [if topic:] raises it as well, before anything reaches the
    model. *)
Theorem get_wiki_content_lets_interrupts_through (i : Inputs) (w : World)
    (e : Exn) :
  truthy (topic_input i) = true ->
  lookup (clock w) (topic_input i) = inl e ->
  is_Exception e = false ->
  get_wiki_content (topic_input i) w =
    (Raise e, after w 1 [WikipediaLookup (topic_input i)]) /\
  topic_block i w =
    (Raise e, after w 1 [spinner_fetch; WikipediaLookup (topic_input i)]).
Proof.
  intros Ht Hl He. split.
  - now rewrite get_wiki_content_eval, Hl, He.
  - rewrite topic_block_eval, Ht, get_wiki_content_eval.
    change (clock (after w 0 [spinner_fetch])) with (clock w).
    now rewrite Hl, He, after_after.
Qed.

(** X3: a page whose text is empty is not an error: [get_wiki_content]
    returns the empty string, and since the empty string is falsy the page
    shows neither a diagnostic nor the article, and does not touch the
    model. *)
Theorem empty_article_shows_nothing (i : Inputs) (w : World) :
  truthy (topic_input i) = true ->
  lookup (clock w) (topic_input i) = inr [] ->
  fst (get_wiki_content (topic_input i) w) = Return (Some []) /\
  topic_block i w =
    (Return tt, after w 1 [spinner_fetch; WikipediaLookup (topic_input i)]).
Proof.
  intros Ht Hl. split.
  - now rewrite get_wiki_content_eval, Hl.
  - rewrite topic_block_eval, Ht, get_wiki_content_eval.
    change (clock (after w 0 [spinner_fetch])) with (clock w).
    now rewrite Hl, after_after.
Qed.
End FetcherMore.

(* ================================================================= *)
(** ** More about prompts and results *)

Ltac literal_lengths :=
  repeat match goal with
  | |- context [List.length (py ?s)] =>
      let n := eval vm_compute in (List.length (py s)) in
      change (List.length (py s)) with n
  end.

Lemma summary_prompt_length (topic c : pystr) :
  len (summary_prompt topic c) = (len topic + len c + 138)%Z.
Proof.
  unfold summary_prompt, len, nl, triple_quote.
  rewrite !length_app. literal_lengths. simpl List.length. lia.
Qed.

Lemma answer_prompt_length (c q : pystr) :
  len (answer_prompt c q) = (len c + len q + 154)%Z.
Proof.
  unfold answer_prompt, len, nl, triple_quote.
  rewrite !length_app. literal_lengths. simpl List.length. lia.
Qed.

Lemma build_prompt_length (topic c : pystr) (question : option pystr) :
  (len (build_prompt topic c question) <=
   len topic + len c
   + match question with Some q => len q | None => 0 end + 154)%Z.
Proof.
  assert (Ht : (0 <= len topic)%Z) by (unfold len; lia).
  destruct question as [q|]; simpl.
  - assert (Hq : (0 <= len q)%Z) by (unfold len; lia).
    destruct (truthy q);
      rewrite ?answer_prompt_length, ?summary_prompt_length; lia.
  - rewrite summary_prompt_length. lia.
Qed.

(** X4: for a fixed topic and question the prompt determines the content,
    for a fixed content the answer prompt determines the question and the
    summary prompt determines the topic: no two values of one input are
    mapped to the same prompt. *)
Theorem prompt_determines_each_input (topic c : pystr)
    (question : option pystr) :
  (forall c', build_prompt topic c question = build_prompt topic c' question ->
              c = c') /\
  (forall q q', answer_prompt c q = answer_prompt c q' -> q = q') /\
  (forall topic', summary_prompt topic c = summary_prompt topic' c ->
                  topic = topic').
Proof.
  split; [|split].
  - intros c' H.
    destruct (build_prompt_split topic question) as (pre & post & Hs).
    rewrite !Hs in H. apply app_inv_head in H. now apply app_inv_tail in H.
  - intros q q' H. unfold answer_prompt in H.
    repeat (apply app_inv_head in H). now apply app_inv_tail in H.
  - intros topic' H. unfold summary_prompt in H.
    repeat (apply app_inv_head in H). now apply app_inv_tail in H.
Qed.

Lemma answer_delim_length : List.length answer_delim = 15%nat.
Proof. vm_compute. reflexivity. Qed.

Lemma summary_delim_length : List.length summary_delim = 74%nat.
Proof. vm_compute. reflexivity. Qed.

(** X5: the templates do not escape their delimiters, so the prompt does
    not determine content and question together: a content that carries
    the text between the two fields, followed by [y], and the question [z]
    give the same answer prompt as the content without it and the question
    [y], delimiter, [z]; the same holds for topic and content in the
    summary prompt.  The two pairs of inputs are different. *)
Theorem prompt_delimiter_confusion (x y z : pystr) :
  answer_prompt (x ++ answer_delim ++ y) z =
    answer_prompt x (y ++ answer_delim ++ z) /\
  summary_prompt (x ++ summary_delim ++ y) z =
    summary_prompt x (y ++ summary_delim ++ z) /\
  x ++ answer_delim ++ y <> x /\
  x ++ summary_delim ++ y <> x.
Proof.
  split; [|split; [|split]].
  - unfold answer_prompt, answer_delim. now rewrite <- !app_assoc.
  - unfold summary_prompt, summary_delim. now rewrite <- !app_assoc.
  - intros H. apply (f_equal (@List.length _)) in H.
    rewrite !length_app, answer_delim_length in H. lia.
  - intros H. apply (f_equal (@List.length _)) in H.
    rewrite !length_app, summary_delim_length in H. lia.
Qed.

Section ResponderMore.
Context {ext : Externals}.

(** X6: what [summarize_content] returns is the text of the first choice
    with white space taken off its two ends and nothing else: the text is
    white space, then the result, then white space, and the result neither
    starts nor ends with a white space character. *)
Theorem summarize_content_trims_ends_only (h : Handle) (topic c : pystr)
    (q : option pystr) (w : World) (out : Completion) (x : Choice)
    (rest : list Choice) :
  ext_llama_call (clock w) h (build_prompt topic c q) 512 (6 # 10) = inr out ->
  choices out = x :: rest ->
  exists r pre post,
    fst (summarize_content h topic c q w) = Return r /\
    text x = pre ++ r ++ post /\
    Forall (fun ch => isspace ch = true) pre /\
    Forall (fun ch => isspace ch = true) post /\
    (forall ch, hd_error r = Some ch -> isspace ch = false) /\
    (forall ch, hd_error (rev r) = Some ch -> isspace ch = false).
Proof.
  intros Hcall Hch.
  destruct (lstrip_split (text x)) as (pre & Hpre & Fpre).
  destruct (rstrip_split (lstrip (text x))) as (post & Hpost & Fpost).
  exists (strip (text x)), pre, post.
  rewrite summarize_content_eval; simpl. rewrite Hcall, Hch; simpl.
  split; [reflexivity|]. split; [|split; [assumption|split; [assumption|]]].
  - unfold strip. now rewrite <- Hpost.
  - split; intros ch.
    + apply lstrip_fixed_head, lstrip_strip.
    + apply rstrip_fixed_last, rstrip_strip.
Qed.
End ResponderMore.

(* ================================================================= *)
(** ** More about provisioning and loading *)

Lemma fs_write_lookup (path : list pystr) (n n' : Node) :
  fs_write path n = Some n' -> fs_lookup path n' = Some File.
Proof.
  revert n n'. induction path as [|c rest IH]; intros n n'; simpl.
  - destruct n; [|discriminate]. now intros [= <-].
  - destruct n as [|es]; [discriminate|].
    destruct rest as [|c' rest'].
    + destruct (assoc c es) as [sub|] eqn:E.
      * destruct (fs_write [] sub) as [sub'|] eqn:W; [|discriminate].
        intros [= <-]. simpl. rewrite assoc_assoc_set.
        destruct sub; simpl in W; [|discriminate]. now injection W as <-.
      * intros [= <-]. simpl. now rewrite assoc_assoc_set.
    + destruct (assoc c es) as [sub|] eqn:E; [|discriminate].
      destruct (fs_write (c' :: rest') sub) as [sub'|] eqn:W; [|discriminate].
      intros [= <-]. cbn [fs_lookup]. rewrite assoc_assoc_set.
      now apply (IH sub).
Qed.

Section ProvisionerMore.
Context {ext : Externals}.

Lemma download_model_present (w : World) :
  fs_exists MODEL_PATH (fs w) = true ->
  download_model w =
    (Return tt, after w 0 [Makedirs MODEL_DIR; St StInfo msg_available]).
Proof.
  intros H. destruct (model_present_inv _ H) as (sub & Hd).
  unfold download_model.
  rewrite bind_eval, os_makedirs_eval, split_MODEL_DIR, Hd.
  rewrite bind_eval. unfold os_path_exists, get_fs, bind, ret.
  change (fs (after w 0 [Makedirs MODEL_DIR])) with (fs w).
  rewrite H. cbv beta iota. unfold negb, st. now rewrite emit_eval, after_after.
Qed.

(** After [os.makedirs] has returned, the rest of [download_model]. *)
Lemma download_model_rest_returns (w0 w1 : World) :
  (present <- os_path_exists MODEL_PATH ;;
   if negb present then
     st StInfo (py "Downloading Phi-2 model... This may take a few minutes ⏳") ;;
     gdown_download MODEL_DRIVE_URL MODEL_PATH false ;;
     st StSuccess (py "Model downloaded successfully ✅")
   else
     st StInfo (py "Model already available ✅")) w0 = (Return tt, w1) ->
  fs_exists MODEL_PATH (fs w1) = true.
Proof.
  rewrite bind_eval. unfold os_path_exists, get_fs, bind at 1, ret.
  destruct (fs_exists MODEL_PATH (fs w0)) eqn:E; cbv beta iota; unfold negb, st.
  - rewrite emit_eval. now intros [= <-].
  - rewrite bind_eval, emit_eval, bind_eval, gdown_download_eval.
    destruct (ext_gdown _ _); [discriminate|].
    cbn [fs after].
    destruct (fs_write (split_path MODEL_PATH) (fs w0)) as [root'|] eqn:W;
      [|discriminate].
    rewrite emit_eval. intros [= <-]. cbn [fs after].
    unfold fs_exists. now rewrite (fs_write_lookup _ _ W).
Qed.

Lemma download_model_returns (w w1 : World) :
  download_model w = (Return tt, w1) -> fs_exists MODEL_PATH (fs w1) = true.
Proof.
  unfold download_model. rewrite bind_eval.
  destruct (os_makedirs MODEL_DIR true w) as [[[]|e] w0]; [|discriminate].
  apply download_model_rest_returns.
Qed.

(** X7: when [download_model] returns, the model file is there, whatever
    the files were before; calling it again then downloads nothing and
    changes no file, it only reports that the model is available. *)
Theorem download_model_idempotent (w w1 : World) :
  download_model w = (Return tt, w1) ->
  fs_exists MODEL_PATH (fs w1) = true /\
  download_model w1 =
    (Return tt, after w1 0 [Makedirs MODEL_DIR; St StInfo msg_available]).
Proof.
  intros H. apply download_model_returns in H.
  split; [assumption | now apply download_model_present].
Qed.

Lemma load_model_miss (w : World) :
  resource_cache w = None ->
  load_model w =
  if fs_exists MODEL_PATH (fs w) then
    match ext_llama_load (clock w) MODEL_PATH 2048 8 with
    | Some e =>
        (Raise e, after w 1 [LlamaInit MODEL_PATH 2048 8 None])
    | None =>
        (Return (next_obj w),
         mkWorld (fs w) (Some (next_obj w)) (S (next_obj w)) (S (clock w))
           (log w ++ [LlamaInit MODEL_PATH 2048 8 (Some (next_obj w))]))
    end
  else
    (Raise (mkExn ValueError (py "Model path does not exist: " ++ MODEL_PATH)),
     after w 1 [LlamaInit MODEL_PATH 2048 8 None]).
Proof.
  intros Hc.
  unfold load_model, st_cache_resource, Llama, bind, get_cache, get_clock,
    tick, get_fs, fresh_obj, emit, set_cache, ret, raise, after.
  rewrite Hc. cbn [clock fs next_obj log resource_cache].
  destruct (fs_exists MODEL_PATH (fs w));
    [destruct (ext_llama_load _ _ _ _)|];
    cbn [clock fs next_obj log resource_cache]; now rewrite ?Hc.
Qed.

(** X8: [load_model] does not check that the model was provisioned: with
    no handle cached and no model file, it raises the engine's
    [ValueError], caches nothing and constructs nothing, so that a later
    call starts over. *)
Theorem load_model_without_file (w : World) :
  resource_cache w = None ->
  fs_exists MODEL_PATH (fs w) = false ->
  exists e w1,
    load_model w = (Raise e, w1) /\
    exn_class e = ValueError /\
    resource_cache w1 = None /\
    constructed (log w1) = constructed (log w) /\
    fs w1 = fs w.
Proof.
  intros Hc Hf. rewrite (load_model_miss _ Hc), Hf.
  eexists _, _. split; [reflexivity|]. split; [reflexivity|].
  split; [exact Hc|]. split; [|reflexivity].
  simpl. now rewrite constructed_app, app_nil_r.
Qed.

(** X9: provisioning establishes what loading needs: right after
    [download_model] has returned, a first [load_model] cannot fail for a
    missing file; it fails with the loader's own error or returns a fresh
    handle and caches it. *)
Theorem download_then_load (w w1 : World) :
  download_model w = (Return tt, w1) ->
  resource_cache w1 = None ->
  match ext_llama_load (clock w1) MODEL_PATH 2048 8 with
  | Some e => exists w2, load_model w1 = (Raise e, w2) /\
                         resource_cache w2 = None
  | None => exists w2, load_model w1 = (Return (next_obj w1), w2) /\
                       resource_cache w2 = Some (next_obj w1) /\
                       constructed (log w2) =
                         constructed (log w1) ++ [next_obj w1]
  end.
Proof.
  intros Hd Hc. apply download_model_returns in Hd.
  rewrite (load_model_miss _ Hc), Hd.
  destruct (ext_llama_load _ _ _ _) as [e|]; eexists; split;
    try reflexivity; try exact Hc.
  split; [reflexivity|]. simpl. now rewrite constructed_app.
Qed.
End ProvisionerMore.

(* ================================================================= *)
(** ** More about one run of the page *)

Lemma filter_none (f : Event -> bool) (evs : list Event) :
  Forall (fun ev => f ev = false) evs -> filter f evs = [].
Proof.
  induction 1 as [|ev evs Hev _ IH]; simpl; [reflexivity|].
  now rewrite Hev.
Qed.

Section Counting.
Variable f : Event -> bool.

Lemma eam_zero {A} (m : M A) :
  frames (fun ev => f ev = false) m -> emits_at_most f 0 m.
Proof.
  intros H w. destruct (H w) as (evs & Hl & F).
  exists evs. split; [assumption|]. now rewrite filter_none.
Qed.

Lemma eam_le {A} (n n' : nat) (m : M A) :
  emits_at_most f n m -> (n <= n')%nat -> emits_at_most f n' m.
Proof.
  intros H Hn w. destruct (H w) as (evs & Hl & Hc).
  exists evs. split; [assumption | lia].
Qed.

Lemma eam_ret {A} (n : nat) (a : A) : emits_at_most f n (ret a).
Proof. intros w. exists []. simpl. rewrite app_nil_r. split; [reflexivity | lia]. Qed.

Lemma eam_bind {A B} (a b : nat) (m : M A) (k : A -> M B) :
  emits_at_most f a m -> (forall x, emits_at_most f b (k x)) ->
  emits_at_most f (a + b) (bind m k).
Proof.
  intros Hm Hk w. unfold bind.
  destruct (Hm w) as (e1 & H1 & C1).
  destruct (m w) as [[x|e] w1]; simpl in *.
  - destruct (Hk x w1) as (e2 & H2 & C2).
    exists (e1 ++ e2). rewrite H2, H1, app_assoc, filter_app, length_app.
    split; [reflexivity | lia].
  - exists e1. split; [assumption | lia].
Qed.

Lemma eam_bind0 {A B} (n : nat) (m : M A) (k : A -> M B) :
  emits_at_most f 0 m -> (forall x, emits_at_most f n (k x)) ->
  emits_at_most f n (bind m k).
Proof. intros Hm Hk. exact (@eam_bind _ _ 0 n m k Hm Hk). Qed.

Lemma eam_st (n : nat) (k : StKind) (body : pystr) :
  (forall k' body', f (St k' body') = false) -> emits_at_most f n (st k body).
Proof.
  intros H. apply eam_le with (n := 0%nat); [|lia].
  apply eam_zero. now apply frames_emit.
Qed.
End Counting.

Section PageMore.
Context {ext : Externals}.

(** One run of the page makes no more outside calls of a kind than its
    four workers make together. *)
Lemma app_emits_at_most (f : Event -> bool) (a b c d : nat) (i : Inputs) :
  (forall k body, f (St k body) = false) ->
  emits_at_most f a download_model ->
  (forall topic, emits_at_most f b (get_wiki_content topic)) ->
  emits_at_most f c load_model ->
  (forall h topic text q, emits_at_most f d (summarize_content h topic text q)) ->
  emits_at_most f (a + b + c + d) (app i).
Proof.
  intros Hst Hd Hg Hl Hs.
  assert (St0 : forall n k body, emits_at_most f n (st k body))
    by (intros; now apply eam_st).
  apply eam_le with (n := (a + ((b + (c + d)) + 0))%nat); [|lia].
  unfold app. apply eam_bind; [|intros _; apply eam_bind].
  - unfold setup. do 4 (apply eam_bind0; [apply St0|intros _]).
    destruct (download_clicked i); [assumption | apply eam_ret].
  - unfold topic_block, with_spinner.
    destruct (truthy (topic_input i)); [|apply eam_ret].
    apply eam_bind; [apply eam_bind0; [apply St0 | intros _; apply Hg]|].
    intros [text|]; [|apply eam_ret].
    destruct (truthy text); [|apply eam_ret].
    unfold content_block, with_spinner.
    do 2 (apply eam_bind0; [apply St0|intros _]).
    apply eam_bind; [apply eam_bind0; [apply St0 | intros _; apply Hl]|].
    intros llm. unfold choose_action, with_spinner.
    apply eam_bind0; [apply St0|intros _].
    destruct (pystr_eqb _ _);
      [|destruct (pystr_eqb _ _); [|apply eam_ret]];
      match goal with |- context [if ?b then _ else _] => destruct b end;
      try apply eam_ret;
      (apply eam_le with (n := (d + 0)%nat); [|lia]);
      (apply eam_bind;
       [ apply eam_bind0; [apply St0 | intros _; apply Hs]
       | intros ?; apply eam_bind0; [apply St0 | intros _; apply St0] ]).
  - intros _. unfold footer. apply eam_bind0; [apply St0 | intros _; apply St0].
Qed.
End PageMore.

Section RunBounds.
Context {ext : Externals}.

Lemma download_model_frames (P : Event -> Prop) :
  P (Makedirs MODEL_DIR) ->
  P (GdownDownload MODEL_DRIVE_URL MODEL_PATH) ->
  (forall k body, P (St k body)) ->
  frames P download_model.
Proof.
  intros Hm Hg Hst.
  unfold download_model, os_makedirs, os_path_exists, gdown_download,
    get_fs, get_clock.
  repeat frames_step; auto.
Qed.

Lemma get_wiki_content_frames (P : Event -> Prop) (topic : pystr) :
  P (WikipediaLookup topic) ->
  (forall k body, P (St k body)) ->
  frames P (get_wiki_content topic).
Proof.
  intros Hl Hst.
  unfold get_wiki_content, wikipedia_page, content, get_clock.
  repeat frames_step; auto.
Qed.

Lemma load_model_frames (P : Event -> Prop) :
  (forall r, P (LlamaInit MODEL_PATH 2048 8 r)) -> frames P load_model.
Proof.
  intros Hi.
  unfold load_model, st_cache_resource, Llama, get_clock, get_fs, get_cache.
  repeat frames_step; auto.
Qed.

Lemma summarize_content_one_call (h : Handle) (topic text : pystr)
    (q : option pystr) :
  emits_at_most is_llama_call 1 (summarize_content h topic text q).
Proof.
  intros w. eexists. split; [apply summarize_content_log|]. simpl. lia.
Qed.

Lemma get_wiki_content_one_lookup (topic : pystr) :
  emits_at_most is_lookup 1 (get_wiki_content topic).
Proof.
  intros w. rewrite get_wiki_content_eval.
  destruct (lookup (clock w) topic) as [e|c];
    [destruct (is_Exception e)|];
    eexists; (split; [reflexivity|]); simpl; lia.
Qed.

Lemma load_model_one_init : emits_at_most is_llama_init 1 load_model.
Proof.
  intros w. destruct (resource_cache w) as [h|] eqn:Hc.
  - rewrite (load_model_hit _ Hc). exists []. simpl.
    rewrite app_nil_r. split; [reflexivity | lia].
  - rewrite (load_model_miss _ Hc).
    destruct (fs_exists MODEL_PATH (fs w));
      [destruct (ext_llama_load _ _ _ _)|];
      eexists; (split; [reflexivity|]); simpl; lia.
Qed.

Lemma gdown_download_one_download (url path : pystr) (quiet : bool) :
  emits_at_most is_download 1 (gdown_download url path quiet).
Proof.
  intros w. rewrite gdown_download_eval.
  destruct (ext_gdown _ _); [|destruct (fs_write _ _)];
    eexists; (split; [reflexivity|]); simpl; lia.
Qed.

Lemma download_model_one_download :
  emits_at_most is_download 1 download_model.
Proof.
  assert (St0 : forall n k body, emits_at_most is_download n (st k body))
    by (intros; now apply eam_st).
  unfold download_model.
  apply eam_bind0.
  { apply eam_zero. unfold os_makedirs, get_fs. now repeat frames_step. }
  intros _. apply eam_bind0.
  { apply eam_zero. unfold os_path_exists, get_fs. now repeat frames_step. }
  intros present. destruct (negb present); [|apply St0].
  apply eam_bind0; [apply St0|intros _].
  apply eam_le with (n := (1 + 0)%nat); [|lia].
  apply eam_bind; [apply gdown_download_one_download | intros _; apply St0].
Qed.

(** X10: one run of the page makes at most one lookup, asks [gdown] at
    most once, tries to load the model at most once and calls the engine
    at most once. *)
Theorem one_of_each_per_run (i : Inputs) (w : World) :
  exists evs,
    log (snd (app i w)) = log w ++ evs /\
    (List.length (filter is_lookup evs) <= 1)%nat /\
    (List.length (filter is_download evs) <= 1)%nat /\
    (List.length (filter is_llama_init evs) <= 1)%nat /\
    (List.length (filter is_llama_call evs) <= 1)%nat.
Proof.
  destruct (@app_emits_at_most _ is_lookup 0 1 0 0 i) with (w := w)
    as (evs & Hl & C1).
  { reflexivity. }
  { apply eam_zero, download_model_frames; reflexivity. }
  { apply get_wiki_content_one_lookup. }
  { apply eam_zero, load_model_frames; reflexivity. }
  { intros. apply eam_zero, summarize_content_frames; reflexivity. }
  destruct (@app_emits_at_most _ is_download 1 0 0 0 i) with (w := w)
    as (evs2 & Hl2 & C2).
  { reflexivity. }
  { apply download_model_one_download. }
  { intros. apply eam_zero, get_wiki_content_frames; reflexivity. }
  { apply eam_zero, load_model_frames; reflexivity. }
  { intros. apply eam_zero, summarize_content_frames; reflexivity. }
  destruct (@app_emits_at_most _ is_llama_init 0 0 1 0 i) with (w := w)
    as (evs3 & Hl3 & C3).
  { reflexivity. }
  { apply eam_zero, download_model_frames; reflexivity. }
  { intros. apply eam_zero, get_wiki_content_frames; reflexivity. }
  { apply load_model_one_init. }
  { intros. apply eam_zero, summarize_content_frames; reflexivity. }
  destruct (@app_emits_at_most _ is_llama_call 0 0 0 1 i) with (w := w)
    as (evs4 & Hl4 & C4).
  { reflexivity. }
  { apply eam_zero, download_model_frames; reflexivity. }
  { intros. apply eam_zero, get_wiki_content_frames; reflexivity. }
  { apply eam_zero, load_model_frames; reflexivity. }
  { apply summarize_content_one_call. }
  rewrite Hl in Hl2, Hl3, Hl4.
  apply app_inv_head in Hl2, Hl3, Hl4. subst evs2 evs3 evs4.
  exists evs. simpl in *. repeat split; assumption.
Qed.

Lemma app_keeps_files (i : Inputs) (root : Node) :
  download_clicked i = false -> keeps (fun w => fs w = root) (app i).
Proof.
  intros Hd. unfold app, setup. rewrite Hd.
  unfold topic_block, content_block, choose_action, footer,
    with_spinner, get_wiki_content, summarize_content, load_model,
    st_cache_resource, Llama, wikipedia_page, content, llama_call,
    getitem0, st, get_fs, get_clock, get_cache.
  repeat first [keeps_step | (intros ? H; exact H)].
Qed.

(** X11: the page writes to the disk only through the sidebar button: a
    run in which it is not pressed leaves the files as they are and
    calls neither [os.makedirs] nor [gdown]. *)
Theorem files_untouched_without_button (i : Inputs) (w : World) :
  download_clicked i = false ->
  fs (snd (app i w)) = fs w /\
  exists evs,
    log (snd (app i w)) = log w ++ evs /\
    Forall (fun ev => is_file_event ev = false) evs.
Proof.
  intros Hd. split; [now apply (app_keeps_files i Hd)|].
  revert w. change (frames (fun ev => is_file_event ev = false) (app i)).
  unfold app, setup. rewrite Hd.
  unfold topic_block, content_block, choose_action, footer, with_spinner.
  repeat first
    [ apply get_wiki_content_frames
    | apply load_model_frames
    | frames_step ];
    reflexivity.
Qed.
End RunBounds.

(* ================================================================= *)
(** ** More about a session *)

Lemma no_call_call_to (h : Handle) (ev : Event) : no_call ev -> call_to h ev.
Proof. intros H h' p mt temp ->. discriminate. Qed.

Lemma call_to_call (h : Handle) (p : pystr) (mt : Z) (temp : Q) :
  call_to h (LlamaCall h p mt temp).
Proof. intros h' p' mt' temp' H. congruence. Qed.

Section SessionMore.
Context {ext : Externals}.

Ltac cache_kept :=
  repeat first [keeps_step | (intros ? H; exact H)].

(** A computation that makes no generation call and leaves the cache
    alone keeps [calls_use_cache]. *)
Lemma calls_use_cache_quiet {A} (m : M A) :
  frames no_call m ->
  (forall c, keeps (fun w => resource_cache w = c) m) ->
  keeps calls_use_cache m.
Proof.
  intros F K w J. unfold calls_use_cache in *.
  destruct (F w) as (evs & Hl & Fa).
  rewrite (K _ w eq_refl), Hl.
  destruct (resource_cache w) as [h|]; apply Forall_app; split; try assumption.
  eapply Forall_impl; [|exact Fa]. apply no_call_call_to.
Qed.

Lemma calls_use_cache_load : keeps calls_use_cache load_model.
Proof.
  intros w J. destruct (resource_cache w) as [h|] eqn:Hc.
  - now rewrite (load_model_hit _ Hc).
  - unfold calls_use_cache in *. rewrite Hc in J.
    destruct (@load_model_frames _ no_call) with (w := w) as (evs & Hl & Fa);
      [reflexivity|].
    assert (Fn : Forall no_call (log (snd (load_model w))))
      by (rewrite Hl; apply Forall_app; now split).
    destruct (resource_cache (snd (load_model w))); [|assumption].
    eapply Forall_impl; [|exact Fn]. apply no_call_call_to.
Qed.

Lemma choose_action_calls (i : Inputs) (llm : Handle) (topic text : pystr) :
  frames (call_to llm) (choose_action i llm topic text).
Proof.
  unfold choose_action, with_spinner.
  repeat frames_step;
    first [apply call_to_call | apply no_call_call_to; reflexivity].
Qed.

Lemma choose_action_keeps_cache (i : Inputs) (llm : Handle)
    (topic text : pystr) (c : option Handle) :
  keeps (fun w => resource_cache w = c) (choose_action i llm topic text).
Proof.
  unfold choose_action, with_spinner, summarize_content, llama_call,
    getitem0, st, get_clock.
  cache_kept.
Qed.

Lemma calls_use_cache_choose (i : Inputs) (llm : Handle)
    (topic text : pystr) (w : World) :
  resource_cache w = Some llm ->
  calls_use_cache w ->
  calls_use_cache (snd (choose_action i llm topic text w)).
Proof.
  intros Hc J. unfold calls_use_cache in *.
  rewrite (choose_action_keeps_cache i llm topic text Hc).
  rewrite Hc in J.
  destruct (choose_action_calls i llm topic text w) as (evs & Hl & Fa).
  rewrite Hl. apply Forall_app. now split.
Qed.

Lemma calls_use_cache_content_block (i : Inputs) (topic text : pystr) :
  keeps calls_use_cache (content_block i topic text).
Proof.
  unfold content_block.
  do 2 (apply keeps_bind;
        [apply calls_use_cache_quiet;
         [apply frames_emit; reflexivity | intros c; unfold st; cache_kept]
        |intros _]).
  intros w J. rewrite bind_eval.
  assert (J1 : calls_use_cache (snd (with_spinner (py "Loading Phi-2 model...")
                                       load_model w))).
  { revert w J. apply keeps_bind; [|intros _; apply calls_use_cache_load].
    apply calls_use_cache_quiet;
      [apply frames_emit; reflexivity | intros c; unfold st; cache_kept]. }
  destruct (with_spinner _ load_model w) as [[llm|e] w1] eqn:E;
    [|exact J1].
  apply calls_use_cache_choose; [|exact J1].
  unfold with_spinner, st in E. rewrite bind_eval, emit_eval in E.
  exact (load_model_returns _ E).
Qed.

Lemma calls_use_cache_app (i : Inputs) : keeps calls_use_cache (app i).
Proof.
  unfold app. apply keeps_bind; [|intros _; apply keeps_bind].
  - apply calls_use_cache_quiet.
    + eapply frames_weaken; [|apply setup_no_model]. now intros ev [_ H].
    + intros c.
      unfold setup, download_model, os_makedirs, os_path_exists,
        gdown_download, st, get_fs, get_clock.
      cache_kept.
  - unfold topic_block.
    destruct (truthy (topic_input i)); [|apply keeps_ret].
    apply keeps_bind.
    + apply calls_use_cache_quiet.
      * unfold with_spinner. apply frames_bind;
          [apply frames_emit; reflexivity|intros _].
        apply get_wiki_content_frames; reflexivity.
      * intros c.
        unfold with_spinner, get_wiki_content, wikipedia_page, content, st,
          get_clock.
        cache_kept.
    + intros [text|]; [|apply keeps_ret].
      destruct (truthy text); [|apply keeps_ret].
      apply calls_use_cache_content_block.
  - intros _. apply calls_use_cache_quiet.
    + unfold footer. repeat frames_step; reflexivity.
    + intros c. unfold footer, st. cache_kept.
Qed.

Lemma calls_use_cache_session (runs : list Inputs) (w : World) :
  calls_use_cache w -> calls_use_cache (session runs w).
Proof.
  revert w. induction runs as [|i runs IH]; intros w J; simpl;
    [assumption|].
  apply IH. unfold rerun.
  pose proof (@calls_use_cache_app i w J) as H.
  destruct (app i w) as [[[]|e] w1]; simpl in H; [assumption|].
  revert w1 H. change (keeps calls_use_cache (st StException (exn_str e))).
  apply calls_use_cache_quiet;
    [apply frames_emit; reflexivity | intros c; unfold st; cache_kept].
Qed.

(** X12: the engine is only ever reached through the cached handle.  At
    any moment of a process, while no handle is cached no generation call
    has been made and no handle constructed; once one is cached, it is the
    only handle ever constructed and every generation call so far went to
    it. *)
Theorem session_calls_use_cached_handle (root : Node) (runs : list Inputs) :
  let w := session runs (initial_world root) in
  match resource_cache w with
  | Some h => Forall (call_to h) (log w) /\ constructed (log w) = [h]
  | None => Forall no_call (log w) /\ constructed (log w) = []
  end.
Proof.
  intros w.
  assert (J : calls_use_cache w)
    by (apply calls_use_cache_session; constructor).
  assert (C : cache_inv w) by (apply session_cache_inv; reflexivity).
  unfold calls_use_cache in J. unfold cache_inv in C.
  destruct (resource_cache w); now split.
Qed.
End SessionMore.

(* ================================================================= *)
(** ** More about what the page sends and shows *)

Lemma asks_other (topic text q : pystr) (ev : Event) :
  is_llama_call ev = false -> asks topic text q ev.
Proof. intros H h p mt temp ->. discriminate. Qed.

Lemma asks_none (topic text q : pystr) (h : Handle) (mt : Z) (temp : Q) :
  asks topic text q (LlamaCall h (build_prompt topic text None) mt temp).
Proof. intros h' p' mt' temp' H. left. congruence. Qed.

Lemma asks_some (topic text q : pystr) (h : Handle) (mt : Z) (temp : Q) :
  asks topic text q (LlamaCall h (build_prompt topic text (Some q)) mt temp).
Proof. intros h' p' mt' temp' H. right. congruence. Qed.

Lemma prompt_within_other (n : Z) (ev : Event) :
  is_llama_call ev = false -> prompt_within n ev.
Proof. intros H h p mt temp ->. discriminate. Qed.

Lemma asks_within (topic text q : pystr) (ev : Event) :
  (len text <= 6000)%Z ->
  asks topic text q ev ->
  prompt_within (6154 + len topic + len q) ev.
Proof.
  intros Hl Ha h p mt temp Heq.
  assert (Hq : (0 <= len q)%Z) by (unfold len; lia).
  destruct (Ha _ _ _ _ Heq) as [-> | ->].
  - pose proof (build_prompt_length topic text None) as H. cbv iota in H. lia.
  - pose proof (build_prompt_length topic text (Some q)) as H. cbv iota in H. lia.
Qed.

Lemma slice_to_long (n : Z) (s : pystr) :
  (0 <= n)%Z -> (n <= len s)%Z -> len (slice_to n s) = n.
Proof.
  intros Hn Hs. unfold slice_to, len in *.
  destruct (n <? 0)%Z eqn:E; [apply Z.ltb_lt in E; lia|].
  rewrite length_firstn. lia.
Qed.

Section ShownAndSent.
Context {ext : Externals}.

Lemma content_block_asks (i : Inputs) (topic text : pystr) :
  frames (asks topic text (question_input i)) (content_block i topic text).
Proof.
  unfold content_block, choose_action, with_spinner, load_model,
    st_cache_resource, Llama, get_clock, get_fs, get_cache.
  repeat frames_step;
    first [apply asks_none | apply asks_some | apply asks_other; reflexivity].
Qed.

Lemma topic_block_prompt_bound (i : Inputs) :
  frames (prompt_within (6154 + len (topic_input i) + len (question_input i)))
         (topic_block i).
Proof.
  intros w. rewrite topic_block_eval.
  destruct (truthy (topic_input i));
    [|exists []; split; [now rewrite app_nil_r | constructor]].
  rewrite get_wiki_content_eval.
  change (clock (after w 0 [spinner_fetch])) with (clock w).
  destruct (lookup (clock w) (topic_input i)) as [e|c];
    [destruct (is_Exception e)|]; rewrite after_after;
    try (eexists; split; [reflexivity|];
         repeat constructor; now apply prompt_within_other).
  set (text := slice_to 6000 c).
  assert (Hlen : (len text <= 6000)%Z) by (apply slice_to_length; lia).
  set (w1 := after w _ _).
  assert (F1 : Forall (prompt_within (6154 + len (topic_input i)
                                      + len (question_input i)))
                 [spinner_fetch; WikipediaLookup (topic_input i)])
    by (repeat constructor; now apply prompt_within_other).
  destruct (truthy text); [|now exists [spinner_fetch; WikipediaLookup (topic_input i)]].
  destruct (content_block_asks i (topic_input i) text w1) as (evs & Hl & F).
  exists ([spinner_fetch; WikipediaLookup (topic_input i)] ++ evs).
  rewrite Hl. subst w1. cbn [log after]. rewrite <- app_assoc.
  split; [reflexivity|]. apply Forall_app. split; [assumption|].
  eapply Forall_impl; [|exact F]. intros ev. now apply asks_within.
Qed.

(** X13: every prompt a run of the page hands to the engine has at most
    6154 characters plus the lengths of the topic and of the question
    field: 6000 for the truncated article and 154 for the longer
    template. *)
Theorem prompt_size_bounded (i : Inputs) (w : World) :
  exists evs,
    log (snd (app i w)) = log w ++ evs /\
    Forall (prompt_within (6154 + len (topic_input i) + len (question_input i)))
           evs.
Proof.
  revert w.
  change (frames (prompt_within (6154 + len (topic_input i)
                                 + len (question_input i))) (app i)).
  unfold app. apply frames_bind; [|intros _; apply frames_bind].
  - eapply frames_weaken; [|apply setup_no_model].
    intros ev [_ H]. now apply prompt_within_other.
  - apply topic_block_prompt_bound.
  - intros _. unfold footer.
    repeat frames_step; now apply prompt_within_other.
Qed.

(** X15: the expander shows the article in full when it has at most 2000
    characters, and its first 2000 characters followed by three dots
    otherwise: never more than 2003 characters. *)
Theorem preview_bounded (i : Inputs) (topic text : pystr) (w : World) :
  exists shown rest,
    log (snd (content_block i topic text w)) =
      log w ++ St StExpander (py "📄 View Retrieved Wikipedia Text")
            :: St StWrite shown :: rest /\
    (len shown <= 2003)%Z /\
    ((len text <= 2000)%Z -> shown = text) /\
    ((2000 < len text)%Z ->
     shown = slice_to 2000 text ++ py "..." /\
     len (slice_to 2000 text) = 2000%Z).
Proof.
  unfold content_block, st at 1 2.
  rewrite bind_eval, emit_eval, bind_eval, emit_eval, after_after.
  set (shown := if (len text >? 2000)%Z then _ else _).
  set (w1 := after w _ _).
  assert (F : frames (fun _ => True)
                (llm <- with_spinner (py "Loading Phi-2 model...") load_model ;;
                 choose_action i llm topic text)).
  { apply frames_bind.
    - unfold with_spinner. apply frames_bind; [now apply frames_emit|intros _].
      now apply load_model_frames.
    - intros llm. eapply frames_weaken; [|apply choose_action_calls]. easy. }
  destruct (F w1) as (evs & Hl & _).
  exists shown, evs. rewrite Hl. subst w1. cbn [log after].
  rewrite <- app_assoc. split; [reflexivity|].
  assert (Hs : (len (slice_to 2000 text) <= 2000)%Z)
    by (apply slice_to_length; lia).
  subst shown. destruct (len text >? 2000)%Z eqn:E.
  - apply Z.gtb_lt in E. split; [|split]; [|lia|].
    + unfold len in *. rewrite length_app.
      change (List.length (py "...")) with 3%nat. lia.
    + intros _. split; [reflexivity|]. apply slice_to_long; lia.
  - assert (len text <= 2000)%Z by (destruct (Z.gtb_spec (len text) 2000); [discriminate|lia]).
    split; [lia|]. split; [reflexivity | lia].
Qed.
End ShownAndSent.

Lemma summarize_is_summarize :
  pystr_eqb (radio_label SummarizeTopic) (py "Summarize Topic") = true.
Proof. vm_compute. reflexivity. Qed.

Lemma ask_is_ask :
  pystr_eqb (radio_label AskQuestion) (py "Ask a Question") = true.
Proof. vm_compute. reflexivity. Qed.

Section ResultShown.
Context {ext : Externals}.

(** A request for a summary or an answer, from the spinner to the text
    on the page. *)
Lemma request_eval (msg done : pystr) (llm : Handle) (topic wiki_text : pystr)
    (q : option pystr) (w : World) :
  (answer <- with_spinner msg (summarize_content llm topic wiki_text q) ;;
   st StSuccess done ;;
   st StWrite answer) w =
  let call := LlamaCall llm (build_prompt topic wiki_text q) 512 (6 # 10) in
  match ext_llama_call (clock w) llm (build_prompt topic wiki_text q) 512 (6 # 10) with
  | inl e => (Raise e, after w 1 [St StSpinner msg; call])
  | inr out =>
      match choices out with
      | x :: _ =>
          (Return tt,
           after w 1 [St StSpinner msg; call; St StSuccess done;
                      St StWrite (strip (text x))])
      | [] =>
          (Raise (mkExn IndexError (py "list index out of range")),
           after w 1 [St StSpinner msg; call])
      end
  end.
Proof.
  unfold with_spinner, st.
  rewrite bind_eval, bind_eval, emit_eval, summarize_content_eval.
  cbv zeta. change (clock (after w 0 [St StSpinner msg])) with (clock w).
  destruct (ext_llama_call _ _ _ _ _) as [e|out];
    [now rewrite after_after|].
  destruct (choices out) as [|x rest]; [now rewrite after_after|].
  rewrite bind_eval, emit_eval, emit_eval, !after_after. reflexivity.
Qed.

Lemma choose_action_eval (i : Inputs) (llm : Handle) (topic wiki_text : pystr)
    (w : World) :
  choose_action i llm topic wiki_text w =
  let w0 := after w 0 [St StSubheader (py "🧩 Choose Action")] in
  match action_choice i with
  | SummarizeTopic =>
      if summary_clicked i then
        (summary <- with_spinner (py "Generating summary...")
                      (summarize_content llm topic wiki_text None) ;;
         st StSuccess (py "✅ Summary generated!") ;;
         st StWrite summary) w0
      else (Return tt, w0)
  | AskQuestion =>
      if answer_clicked i && truthy (question_input i) then
        (answer <- with_spinner (py "Generating answer...")
                     (summarize_content llm topic wiki_text
                        (Some (question_input i))) ;;
         st StSuccess (py "✅ Answer generated!") ;;
         st StWrite answer) w0
      else (Return tt, w0)
  end.
Proof.
  unfold choose_action. rewrite bind_eval. unfold st at 1. rewrite emit_eval.
  destruct (action_choice i).
  - rewrite summarize_is_summarize. now destruct (summary_clicked i).
  - rewrite ask_is_not_summarize, ask_is_ask.
    now destruct (answer_clicked i && truthy (question_input i)).
Qed.

(** X14: the page never shows a result it did not get from the engine.
    Whatever [choose_action] writes on the page is the stripped text of
    the first choice of a completion that the engine returned, in this
    run, for a prompt built from the given topic and text, with no
    question or with the question of the question field; and when the
    engine call fails, neither a success line nor a result is shown. *)
Theorem result_only_after_generation (i : Inputs) (llm : Handle)
    (topic wiki_text : pystr) (w : World) :
  exists evs,
    log (snd (choose_action i llm topic wiki_text w)) = log w ++ evs /\
    (forall r, In (St StWrite r) evs ->
       fst (choose_action i llm topic wiki_text w) = Return tt /\
       exists q out x rest,
         (q = None \/ q = Some (question_input i)) /\
         In (LlamaCall llm (build_prompt topic wiki_text q) 512 (6 # 10)) evs /\
         ext_llama_call (clock w) llm (build_prompt topic wiki_text q) 512 (6 # 10)
           = inr out /\
         choices out = x :: rest /\
         r = strip (text x)) /\
    (forall e, fst (choose_action i llm topic wiki_text w) = Raise e ->
       forall k body, In (St k body) evs -> k = StSubheader \/ k = StSpinner).
Proof.
  rewrite choose_action_eval. cbv zeta.
  set (sub := St StSubheader (py "🧩 Choose Action")).
  assert (Quiet :
    exists evs,
      log (snd (Return tt, after w 0 [sub])) = log w ++ evs /\
      (forall r, In (St StWrite r) evs ->
         fst (Return tt, after w 0 [sub]) = Return tt /\
         exists q out x rest,
           (q = None \/ q = Some (question_input i)) /\
           In (LlamaCall llm (build_prompt topic wiki_text q) 512 (6 # 10)) evs /\
           ext_llama_call (clock w) llm (build_prompt topic wiki_text q) 512 (6 # 10)
             = inr out /\
           choices out = x :: rest /\
           r = strip (text x)) /\
      (forall e, fst (@Return unit tt, after w 0 [sub]) = Raise e ->
         forall k body, In (St k body) evs -> k = StSubheader \/ k = StSpinner)).
  { exists [sub]. split; [reflexivity|]. split.
    - intros r [H|[]]. discriminate.
    - intros e H. discriminate. }
  assert (Request : forall msg done q,
    (q = None \/ q = Some (question_input i)) ->
    exists evs,
      log (snd ((answer <- with_spinner msg (summarize_content llm topic wiki_text q) ;;
                 st StSuccess done ;; st StWrite answer) (after w 0 [sub]))) =
        log w ++ evs /\
      (forall r, In (St StWrite r) evs ->
         fst ((answer <- with_spinner msg (summarize_content llm topic wiki_text q) ;;
               st StSuccess done ;; st StWrite answer) (after w 0 [sub])) =
           Return tt /\
         exists q out x rest,
           (q = None \/ q = Some (question_input i)) /\
           In (LlamaCall llm (build_prompt topic wiki_text q) 512 (6 # 10)) evs /\
           ext_llama_call (clock w) llm (build_prompt topic wiki_text q) 512 (6 # 10)
             = inr out /\
           choices out = x :: rest /\
           r = strip (text x)) /\
      (forall e,
         fst ((answer <- with_spinner msg (summarize_content llm topic wiki_text q) ;;
               st StSuccess done ;; st StWrite answer) (after w 0 [sub])) =
           Raise e ->
         forall k body, In (St k body) evs -> k = StSubheader \/ k = StSpinner)).
  { intros msg done q Hq. rewrite request_eval. cbv zeta.
    change (clock (after w 0 [sub])) with (clock w).
    destruct (ext_llama_call (clock w) llm (build_prompt topic wiki_text q) 512 (6 # 10))
      as [e|out] eqn:Ecall.
    - rewrite after_after. eexists. split; [reflexivity|]. split.
      + intros r [H|[H|[H|[]]]]; discriminate.
      + intros _ _ k body [H|[H|[H|[]]]]; try discriminate;
          injection H as <- _; auto.
    - destruct (choices out) as [|x rest] eqn:Ech; rewrite after_after.
      + eexists. split; [reflexivity|]. split.
        * intros r [H|[H|[H|[]]]]; discriminate.
        * intros _ _ k body [H|[H|[H|[]]]]; try discriminate;
            injection H as <- _; auto.
      + eexists. split; [reflexivity|]. split.
        * intros r [H|[H|[H|[H|[H|[]]]]]]; try discriminate.
          injection H as <-. split; [reflexivity|].
          exists q, out, x, rest. repeat split; try assumption.
          simpl. auto.
        * intros e H. discriminate. }
  destruct (action_choice i).
  - destruct (summary_clicked i); [|exact Quiet]. apply Request. now left.
  - destruct (answer_clicked i && truthy (question_input i)); [|exact Quiet].
    apply Request. now right.
Qed.
End ResultShown.

(* ================================================================= *)
(** ** The further theorems at work on concrete runs *)

Lemma get_wiki_content_prefix_witness :
  exists text rest,
    fst (@get_wiki_content Demo.online Demo.quantum
           (initial_world Demo.empty_dir)) = Return (Some text) /\
    Demo.article = text ++ rest /\
    ((len Demo.article <= 6000)%Z -> text = Demo.article /\ rest = []) /\
    ((6000 < len Demo.article)%Z -> len text = 6000%Z).
Proof.
  apply (@get_wiki_content_prefix Demo.online Demo.quantum
           (initial_world Demo.empty_dir) Demo.article).
  reflexivity.
Defined.

Lemma get_wiki_content_lets_interrupts_through_witness :
  @get_wiki_content Cases.interrupted Demo.quantum
    (initial_world Demo.with_model) =
    (Raise (mkExn KeyboardInterrupt []),
     after (initial_world Demo.with_model) 1 [WikipediaLookup Demo.quantum]) /\
  @topic_block Cases.interrupted Demo.summarize_quantum
    (initial_world Demo.with_model) =
    (Raise (mkExn KeyboardInterrupt []),
     after (initial_world Demo.with_model) 1
       [spinner_fetch; WikipediaLookup Demo.quantum]).
Proof.
  apply (@get_wiki_content_lets_interrupts_through Cases.interrupted
           Demo.summarize_quantum (initial_world Demo.with_model)
           (mkExn KeyboardInterrupt []));
    reflexivity.
Defined.

Lemma empty_article_shows_nothing_witness :
  fst (@get_wiki_content Cases.blank_page Demo.quantum
         (initial_world Demo.with_model)) = Return (Some []) /\
  @topic_block Cases.blank_page Demo.summarize_quantum
    (initial_world Demo.with_model) =
    (Return tt,
     after (initial_world Demo.with_model) 1
       [spinner_fetch; WikipediaLookup Demo.quantum]).
Proof.
  apply (@empty_article_shows_nothing Cases.blank_page
           Demo.summarize_quantum (initial_world Demo.with_model));
    reflexivity.
Defined.

Lemma prompt_determines_each_input_witness :
  Cases.short_article = Cases.short_article /\
  py "Who?" = py "Who?" /\
  Demo.quantum = Demo.quantum.
Proof.
  destruct (prompt_determines_each_input Demo.quantum Cases.short_article
              (Some (py "Who?"))) as (Hc & Hq & Ht).
  split; [|split].
  - apply Hc. reflexivity.
  - apply (Hq (py "Who?") (py "Who?")). reflexivity.
  - apply Ht. reflexivity.
Defined.

Lemma summarize_content_trims_ends_only_witness :
  exists r pre post,
    fst (@summarize_content Cases.short_page 0%nat Demo.quantum
           Cases.short_article None (initial_world Demo.with_model)) =
      Return r /\
    py "  Two  words " = pre ++ r ++ post /\
    Forall (fun ch => isspace ch = true) pre /\
    Forall (fun ch => isspace ch = true) post /\
    (forall ch, hd_error r = Some ch -> isspace ch = false) /\
    (forall ch, hd_error (rev r) = Some ch -> isspace ch = false).
Proof.
  apply (@summarize_content_trims_ends_only Cases.short_page 0%nat
           Demo.quantum Cases.short_article None
           (initial_world Demo.with_model)
           (mkCompletion [mkChoice (py "  Two  words ")])
           (mkChoice (py "  Two  words ")) []);
    reflexivity.
Defined.

Lemma download_model_idempotent_witness :
  let w1 := snd (@download_model Demo.online (initial_world Demo.empty_dir)) in
  fs_exists MODEL_PATH (fs w1) = true /\
  @download_model Demo.online w1 =
    (Return tt, after w1 0 [Makedirs MODEL_DIR; St StInfo msg_available]).
Proof.
  intros w1.
  apply (@download_model_idempotent Demo.online (initial_world Demo.empty_dir)).
  vm_compute. reflexivity.
Defined.

Lemma load_model_without_file_witness :
  exists e w1,
    @load_model Demo.online (initial_world Demo.empty_dir) = (Raise e, w1) /\
    exn_class e = ValueError /\
    resource_cache w1 = None /\
    constructed (log w1) = constructed (log (initial_world Demo.empty_dir)) /\
    fs w1 = fs (initial_world Demo.empty_dir).
Proof.
  apply (@load_model_without_file Demo.online (initial_world Demo.empty_dir));
    reflexivity.
Defined.

Lemma download_then_load_witness :
  let w1 := snd (@download_model Demo.online (initial_world Demo.empty_dir)) in
  exists w2,
    @load_model Demo.online w1 = (Return (next_obj w1), w2) /\
    resource_cache w2 = Some (next_obj w1) /\
    constructed (log w2) = constructed (log w1) ++ [next_obj w1].
Proof.
  intros w1.
  apply (@download_then_load Demo.online (initial_world Demo.empty_dir) w1);
    vm_compute; reflexivity.
Defined.

Lemma files_untouched_without_button_witness :
  fs (snd (@app Demo.online Demo.summarize_quantum
             (initial_world Demo.with_model))) =
    fs (initial_world Demo.with_model) /\
  exists evs,
    log (snd (@app Demo.online Demo.summarize_quantum
                (initial_world Demo.with_model))) =
      log (initial_world Demo.with_model) ++ evs /\
    Forall (fun ev => is_file_event ev = false) evs.
Proof.
  apply (@files_untouched_without_button Demo.online Demo.summarize_quantum
           (initial_world Demo.with_model)).
  reflexivity.
Defined.

Lemma result_only_after_generation_witness :
  fst (@choose_action Cases.short_page Cases.ask_who 0%nat Demo.quantum
         Cases.short_article (initial_world Demo.with_model)) = Return tt /\
  exists q out x rest,
    (q = None \/ q = Some (question_input Cases.ask_who)) /\
    @ext_llama_call Cases.short_page 0 0%nat
      (build_prompt Demo.quantum Cases.short_article q) 512 (6 # 10) = inr out /\
    choices out = x :: rest /\
    py "Two  words" = strip (text x).
Proof.
  destruct (@result_only_after_generation Cases.short_page Cases.ask_who
              0%nat Demo.quantum Cases.short_article
              (initial_world Demo.with_model)) as (evs & Hl & Hw & _).
  assert (Hin : In (St StWrite (py "Two  words")) evs).
  { vm_compute in Hl. subst evs. vm_compute. auto 10. }
  destruct (Hw _ Hin) as (Hr & q & out & x & rest & Hq & _ & Hcall & Hch & Hs).
  split; [exact Hr|]. now exists q, out, x, rest.
Defined.

(** All four outside calls in one run, from an empty directory with the
    sidebar button pressed. *)
Example scenario_everything_once :
  let i := mkInputs true Demo.quantum SummarizeTopic true [] false in
  let evs := log (snd (@app Demo.online i (initial_world Demo.empty_dir))) in
  (List.length (filter is_lookup evs),
   List.length (filter is_download evs),
   List.length (filter is_llama_init evs),
   List.length (filter is_llama_call evs)) = (1, 1, 1, 1)%nat.
Proof. vm_compute. reflexivity. Qed.

(** A question that carries the delimiter of the answer template: the
    engine receives the same prompt as for the longer content and the
    shorter question. *)
Example forged_question :
  answer_prompt (py "A") (py "B" ++ answer_delim ++ py "C") =
  answer_prompt (py "A" ++ answer_delim ++ py "B") (py "C").
Proof. vm_compute. reflexivity. Qed.

(** [models] exists as a regular file: [os.makedirs] raises, with Python's
    text, before [gdown] is asked for anything. *)
Example makedirs_blocked :
  let r := @download_model Demo.online
             (initial_world (Dir [(py "models", File)])) in
  fst r = Raise (mkExn FileExistsError (py "[Errno 17] File exists: 'models'")) /\
  filter is_download (log (snd r)) = [].
Proof. vm_compute. split; reflexivity. Qed.
